(** * asyncify: a verification model of the sync/async decorators

    The development embeds the four source files of the package

    - [asyncify/func.py]   ([asyncify_func], [syncify_func]),
    - [asyncify/cls.py]    ([ignore], [asyncify_class]),
    - [asyncify/hybrid.py] ([HybridFunction], [hybrid_function]),
    - [asyncify/events.py] ([AsyncifyEventLoopPolicy])

    as executable Rocq definitions and states the package's specified
    behaviour as theorems about them.

    Python objects are records of exactly the observations the source
    makes on them ([callable], [inspect.iscoroutinefunction],
    [isinstance], [__name__], ...).  Calls are state passing: a call takes
    the execution context (current thread, running event loop) and the
    world, and returns an outcome (a value or a raised exception) together
    with the new world. *)

From stdpp Require Import gmap strings list.
From Stdlib Require Import Ascii String ZArith.

Set Warnings "-register-all".

(** ** Exceptions and outcomes *)

Inductive Exn : Type :=
| TypeError (msg : string)
| RuntimeError (msg : string)
| AttributeError (msg : string)
| ValueError (msg : string)
| AssertionError
| UserError (tag : string).

Inductive Outcome (A : Type) : Type :=
| Ret (a : A)
| Raise (e : Exn).

Arguments Ret {A} a.
Arguments Raise {A} e.

Definition is_raise {A} (o : Outcome A) : bool :=
  match o with Ret _ => false | Raise _ => true end.

Definition is_type_error {A} (o : Outcome A) : bool :=
  match o with Raise (TypeError _) => true | _ => false end.

Definition is_runtime_error {A} (o : Outcome A) : bool :=
  match o with Raise (RuntimeError _) => true | _ => false end.

(** ** Execution context

    [asyncio.get_running_loop()] reads thread-local state: the loop that
    is running on the calling thread, if any. *)

Inductive Thread : Type := LoopThread | WorkerThread.

Definition Loop : Type := nat.

Record Ctx : Type := {
  cur_thread : Thread;
  running_loop : option Loop
}.

(** The context in which the default executor runs a job: a worker
    thread, on which no event loop is running. *)
Definition worker_ctx : Ctx :=
  {| cur_thread := WorkerThread; running_loop := None |}.

(** The types a class member is tested against in [cls.py]
    ([function_types]), plus the two other cases that occur. *)
Inductive PyType : Type :=
| FunctionType
| ClassMethodType
| StaticMethodType
| MethodType
| OtherType.

Definition PyType_eqb (a b : PyType) : bool :=
  match a, b with
  | FunctionType, FunctionType
  | ClassMethodType, ClassMethodType
  | StaticMethodType, StaticMethodType
  | MethodType, MethodType
  | OtherType, OtherType => true
  | _, _ => false
  end.

(** ** Source text *)

(** [str.isspace] on the ASCII range: TAB..CR, FS..US and the space. *)
Definition is_space (c : ascii) : bool :=
  let n := nat_of_ascii c in
  (Nat.leb 9 n && Nat.leb n 13) || (Nat.leb 28 n && Nat.leb n 32).

(** The class [\w] on the ASCII range: letters, digits and underscore. *)
Definition is_word (c : ascii) : bool :=
  let n := nat_of_ascii c in
  (Nat.leb 48 n && Nat.leb n 57)
  || (Nat.leb 65 n && Nat.leb n 90)
  || (Nat.leb 97 n && Nat.leb n 122)
  || Nat.eqb n 95.

(** The class [.] (without DOTALL): anything but a newline. *)
Definition is_dot (c : ascii) : bool := negb (Nat.eqb (nat_of_ascii c) 10).

Fixpoint lstrip (s : string) : string :=
  match s with
  | EmptyString => EmptyString
  | String c s' => if is_space c then lstrip s' else s
  end.

Fixpoint rstrip (s : string) : string :=
  match s with
  | EmptyString => EmptyString
  | String c s' =>
      match rstrip s' with
      | EmptyString => if is_space c then EmptyString else String c EmptyString
      | r => String c r
      end
  end.

(** [s.strip()]. *)
Definition strip (s : string) : string := rstrip (lstrip s).

(** [needle in hay]. *)
Fixpoint contains (needle hay : string) : bool :=
  String.prefix needle hay
  || match hay with
     | EmptyString => false
     | String _ hay' => contains needle hay'
     end.

(** [s[a:b]] for [0 <= a <= b <= len(s)]. *)
Definition slice (a b : nat) (s : string) : string := String.substring a (b - a) s.

(** ** Regular expressions, matched as [re] does: leftmost, by
    backtracking, greedy repetition first. *)

Inductive Regex : Type :=
| RChar (c : ascii)
| RSet (p : ascii -> bool)
| RSeq (r1 r2 : Regex)
| RAlt (r1 r2 : Regex)
| RStar (r : Regex).

Definition RPlus (r : Regex) : Regex := RSeq r (RStar r).

Fixpoint RStr (s : string) : Regex -> Regex :=
  fun k =>
    match s with
    | EmptyString => k
    | String c s' => RSeq (RChar c) (RStr s' k)
    end.

(** The loop of a greedy repetition: try one more round of [step], which
    must consume input, before handing over to the continuation [k]. *)
Fixpoint star_loop {X : Type} (step : string -> (string -> option X) -> option X)
    (k : string -> option X) (n : nat) (s : string) {struct n} : option X :=
  match n with
  | O => k s
  | S n' =>
      match step s (fun s' =>
              if Nat.ltb (String.length s') (String.length s)
              then star_loop step k n' s' else None) with
      | Some x => Some x
      | None => k s
      end
  end.

(** [rmatch r s k]: match [r] at the head of [s] and hand the rest of the
    input to the continuation [k]; alternatives are tried in priority
    order and the first that lets [k] succeed wins. *)
Fixpoint rmatch {X : Type} (r : Regex) (s : string) (k : string -> option X)
  {struct r} : option X :=
  match r with
  | RChar c =>
      match s with
      | String d s' => if Ascii.eqb c d then k s' else None
      | EmptyString => None
      end
  | RSet p =>
      match s with
      | String d s' => if p d then k s' else None
      | EmptyString => None
      end
  | RSeq r1 r2 => rmatch r1 s (fun s' => rmatch r2 s' k)
  | RAlt r1 r2 =>
      match rmatch r1 s k with
      | Some x => Some x
      | None => rmatch r2 s k
      end
  | RStar r1 => star_loop (fun s' k' => rmatch r1 s' k') k (String.length s) s
  end.

(** [pattern.search(s)]: the span of the leftmost match. *)
Fixpoint search_from (r : Regex) (pos : nat) (s : string) : option (nat * nat) :=
  match rmatch r s (fun rest => Some rest) with
  | Some rest => Some (pos, pos + (String.length s - String.length rest))
  | None =>
      match s with
      | EmptyString => None
      | String _ s' => search_from r (S pos) s'
      end
  end.

Definition search (r : Regex) (s : string) : option (nat * nat) := search_from r 0 s.

(** [re.compile(r'await\s+(\w|\.)*\(.*\)')]. *)
Definition regex : Regex :=
  RStr "await"
    (RSeq (RPlus (RSet is_space))
       (RSeq (RStar (RAlt (RSet is_word) (RChar "."%char)))
          (RSeq (RChar "("%char)
             (RSeq (RStar (RSet is_dot)) (RChar ")"%char))))).

(** A successful match hands a suffix of the input to its continuation. *)
Definition hands_suffix {X : Type}
    (step : string -> (string -> option X) -> option X) : Prop :=
  forall s k x, step s k = Some x ->
    exists p s', s = p +:+ s' /\ k s' = Some x.

Section Objects.

Context {World : Type}.

(** ** Values

    First-order data, instances (with the result of [bool(obj)]), and
    coroutine objects.  Awaiting a coroutine object runs its body in the
    context of the awaiting task. *)

Inductive Val : Type :=
| VNone
| VBool (b : bool)
| VInt (z : Z)
| VStr (s : string)
| VObj (oid : nat) (truthy : bool)
| VCoroutine (body : Ctx -> World -> Outcome Val * World).

(** Python truth value, as tested by [if x:]. *)
Definition truth (v : Val) : bool :=
  match v with
  | VNone => false
  | VBool b => b
  | VInt z => negb (Z.eqb z 0)
  | VStr s => negb (String.eqb s "")
  | VObj _ t => t
  | VCoroutine _ => true
  end.

(** The positional and keyword arguments of a call. *)
Record Args : Type := {
  positional : list Val;
  keywords : list (string * Val)
}.

Definition Effect (A : Type) : Type := World -> Outcome A * World.

(** ** Objects handed to the decorators *)

Record PyObj : Type := {
  repr : string;                          (* repr(obj), used in messages *)
  py_type : PyType;                       (* for isinstance / isfunction *)
  is_coroutine_function : bool;           (* inspect.iscoroutinefunction(obj) *)
  is_callable : bool;                     (* callable(obj) *)
  dunder_name : option string;            (* obj.__name__, when present *)
  asyncify_ignore : bool;                 (* truth of getattr(obj, '_asyncify_ignore', False) *)
  signature : Outcome nat;                (* len(inspect.signature(obj).parameters) *)
  call : Ctx -> Args -> Effect Val        (* calling obj, when callable *)
}.

(** [inspect.isfunction]. *)
Definition isfunction (o : PyObj) : bool := PyType_eqb (py_type o) FunctionType.

(** The call protocol: calling an object that is not callable raises
    [TypeError]. *)
Definition invoke (o : PyObj) (ctx : Ctx) (args : Args) : Effect Val :=
  fun w =>
    if is_callable o then call o ctx args w
    else (Raise (TypeError (repr o +:+ " object is not callable")), w).

(** ** The part of asyncio the package calls *)

Definition get_running_loop (ctx : Ctx) : Outcome Loop :=
  match running_loop ctx with
  | Some l => Ret l
  | None => Raise (RuntimeError "no running event loop")
  end.

(** [await loop.run_in_executor(None, new_func)], where [new_func] is
    [func] partially applied to the call's arguments:
    the job runs on a worker thread of the default executor; the future
    resolves to its return value or fails with its exception. *)
Definition run_in_executor (loop : Loop) (func : PyObj) (args : Args) : Effect Val :=
  invoke func worker_ctx args.

(** The guard at the head of [loop.run_until_complete]. *)
Definition _check_running (ctx : Ctx) (loop : Loop) : Outcome unit :=
  match running_loop ctx with
  | Some l =>
      if Nat.eqb l loop
      then Raise (RuntimeError "This event loop is already running")
      else Raise (RuntimeError "Cannot run the event loop while another loop is running")
  | None => Ret tt
  end.

(** [loop.run_until_complete(future)] for an open loop. *)
Definition run_until_complete (ctx : Ctx) (loop : Loop) (future : Val) : Effect Val :=
  fun w =>
    match _check_running ctx loop with
    | Raise e => (Raise e, w)
    | Ret _ =>
        match future with
        | VCoroutine body =>
            body {| cur_thread := cur_thread ctx; running_loop := Some loop |} w
        | _ => (Raise (TypeError "An asyncio.Future, a coroutine or an awaitable is required"), w)
        end
    end.

(** [await v]. *)
Definition await (v : Val) (ctx : Ctx) : Effect Val :=
  fun w =>
    match v with
    | VCoroutine body => body ctx w
    | _ => (Raise (TypeError "object can't be used in 'await' expression"), w)
    end.

(** ** func.py *)

(** [functools.wraps(func)] on a wrapper defined as [def wrapper_name]:
    the wrapper takes [__name__] from [func] when [func] has one, its
    [__dict__] entries (hence the ignore mark), and, through
    [__wrapped__], its signature. *)
Definition wrapped_name (func : PyObj) (own : string) : string :=
  match dunder_name func with Some n => n | None => own end.

Definition expected_callable (func : PyObj) : Exn :=
  TypeError ("Expected a callable function, not " +:+ repr func).

(** The inner [async def async_func] of [asyncify_func]. *)
Definition async_func (func : PyObj) : PyObj :=
  {| repr := "<function " +:+ wrapped_name func "async_func" +:+ ">";
     py_type := FunctionType;
     is_coroutine_function := true;
     is_callable := true;
     dunder_name := Some (wrapped_name func "async_func");
     asyncify_ignore := asyncify_ignore func;
     signature := signature func;
     call := fun _ args w =>
       (Ret (VCoroutine (fun ctx w' =>
          match get_running_loop ctx with
          | Raise e => (Raise e, w')
          | Ret loop => run_in_executor loop func args w'
          end)), w) |}.

Definition asyncify_func (func : PyObj) : Outcome PyObj :=
  if is_coroutine_function func then Ret func
  else if is_callable func then Raise (expected_callable func)
  else Ret (async_func func).

(** The inner [def sync_func] of [syncify_func]. *)
Definition sync_func (func : PyObj) : PyObj :=
  {| repr := "<function " +:+ wrapped_name func "sync_func" +:+ ">";
     py_type := FunctionType;
     is_coroutine_function := false;
     is_callable := true;
     dunder_name := Some (wrapped_name func "sync_func");
     asyncify_ignore := asyncify_ignore func;
     signature := signature func;
     call := fun ctx args w =>
       match get_running_loop ctx with
       | Raise e => (Raise e, w)
       | Ret loop =>
           match invoke func ctx args w with
           | (Raise e, w') => (Raise e, w')
           | (Ret future, w') => run_until_complete ctx loop future w'
           end
       end |}.

Definition syncify_func (func : PyObj) : Outcome PyObj :=
  if isfunction func && negb (is_coroutine_function func) then Ret func
  else if negb (is_callable func) then Raise (expected_callable func)
  else Ret (sync_func func).

(** ** cls.py *)

Definition function_types : list PyType :=
  [FunctionType; ClassMethodType; StaticMethodType].

Definition isinstance (o : PyObj) (types : list PyType) : bool :=
  existsb (PyType_eqb (py_type o)) types.

(** [ignore] sets the sentinel on the function (an object that takes
    attributes) and returns it. *)
Definition ignore (func : PyObj) : PyObj :=
  {| repr := repr func;
     py_type := py_type func;
     is_coroutine_function := is_coroutine_function func;
     is_callable := is_callable func;
     dunder_name := dunder_name func;
     asyncify_ignore := true;
     signature := signature func;
     call := call func |}.

(** A class object: its identity and its members, as the pairs
    [(name, getattr(cls, name))] in the order [inspect.getmembers]
    enumerates them. *)
Record PyClass : Type := {
  cls_id : nat;
  members : list (string * PyObj)
}.

Definition getmembers (cls : PyClass) : list (string * PyObj) := members cls.

Fixpoint assoc_set (name : string) (v : PyObj) (l : list (string * PyObj))
  : list (string * PyObj) :=
  match l with
  | [] => [(name, v)]
  | (n, x) :: rest =>
      if String.eqb n name then (n, v) :: rest
      else (n, x) :: assoc_set name v rest
  end.

Fixpoint assoc_get (name : string) (l : list (string * PyObj)) : option PyObj :=
  match l with
  | [] => None
  | (n, x) :: rest => if String.eqb n name then Some x else assoc_get name rest
  end.

Definition setattr (cls : PyClass) (name : string) (v : PyObj) : PyClass :=
  {| cls_id := cls_id cls; members := assoc_set name v (members cls) |}.

Definition getattr (cls : PyClass) (name : string) : option PyObj :=
  assoc_get name (members cls).

(** The test at the head of the loop body: [true] when the member is
    skipped ([continue]). *)
Definition skipped (name : string) (func : PyObj) : bool :=
  negb (isinstance func function_types)
  || asyncify_ignore func
  || String.prefix "__" name.

(** The [for name, func in inspect.getmembers(cls)] loop: the class is
    mutated member by member; an exception leaves the earlier
    replacements in place. *)
Fixpoint asyncify_members (ms : list (string * PyObj)) (cls : PyClass)
  : Outcome nat * PyClass :=
  match ms with
  | [] => (Ret (cls_id cls), cls)
  | (name, func) :: rest =>
      if skipped name func then asyncify_members rest cls
      else
        match asyncify_func func with
        | Raise e => (Raise e, cls)
        | Ret func' => asyncify_members rest (setattr cls name func')
        end
  end.

(** Returns the identity of the returned class object, and the state of
    the class after the call. *)
Definition asyncify_class (cls : PyClass) : Outcome nat * PyClass :=
  asyncify_members (getmembers cls) cls.

(** ** hybrid.py *)

(** What [inspect.getouterframes] reports of a frame: the source lines
    around the line being executed, when the source is available. *)
Record FrameInfo : Type := {
  code_context : option (list string)
}.

Record HybridFunction : Type := {
  _name : string;
  sync_callback : PyObj;
  async_callback : PyObj;
  _instance : Val
}.

Definition __init__ (name : string) (sync_callback async_callback : PyObj)
  : Outcome HybridFunction :=
  match signature sync_callback with
  | Raise e => Raise e
  | Ret n =>
      match signature async_callback with
      | Raise e => Raise e
      | Ret m =>
          if negb (Nat.eqb n m)
          then Raise (TypeError "Both function signatures must be the same.")
          else Ret {| _name := name;
                      sync_callback := sync_callback;
                      async_callback := async_callback;
                      _instance := VNone |}
      end
  end.

Definition __get__ (self : HybridFunction) (instance : Val) : Outcome HybridFunction :=
  match __init__ (_name self) (sync_callback self) (async_callback self) with
  | Raise e => Raise e
  | Ret new_self =>
      Ret {| _name := _name new_self;
             sync_callback := sync_callback new_self;
             async_callback := async_callback new_self;
             _instance := instance |}
  end.

Definition _check_regex (self : HybridFunction) (code_context : string) : bool :=
  match search regex code_context with
  | None => false
  | Some (a, b) =>
      if negb (contains (_name self) (slice a b code_context)) then false
      else true
  end.

Fixpoint _get_frame (self : HybridFunction) (outerframes : list FrameInfo)
  : Outcome string :=
  match outerframes with
  | [] => Raise (RuntimeError "Could not tell if it should call sync or async.")
  | frame :: rest =>
      match code_context frame with
      | None | Some [] => _get_frame self rest
      | Some (line :: _) =>
          if contains (_name self) line then Ret line
          else _get_frame self rest
      end
  end.

Definition prepend (v : Val) (args : Args) : Args :=
  {| positional := v :: positional args; keywords := keywords args |}.

(** [currentframe] is what [inspect.currentframe()] returns, given as the
    list [inspect.getouterframes] makes of it: the frame of [__call__]
    itself first, then its caller, and so on outwards. *)
Definition __call__ (self : HybridFunction) (currentframe : option (list FrameInfo))
    (ctx : Ctx) (args : Args) : Effect Val :=
  fun w =>
    let args := if truth (_instance self) then prepend (_instance self) args else args in
    match currentframe with
    | None => (Raise AssertionError, w)
    | Some frame =>
        match _get_frame self frame with
        | Raise e => (Raise e, w)
        | Ret line =>
            let code_context := strip line in
            if _check_regex self code_context
            then invoke (async_callback self) ctx args w
            else invoke (sync_callback self) ctx args w
        end
    end.

Definition hybrid_function (name : string) (sync_callback async_callback : PyObj)
  : Outcome HybridFunction :=
  __init__ name sync_callback async_callback.

(** The line of [__call__] that is executing while [_get_frame] walks the
    stack, as its frame reports it. *)
Definition call_site_line : string :=
  "        code_context = self._get_frame(frame).strip()" +:+ String "010"%char EmptyString.

Definition own_frame : FrameInfo := {| code_context := Some [call_site_line] |}.

(** ** events.py *)

Definition _valid_names : list string :=
  ["get_event_loop"; "set_event_loop"; "new_event_loop";
   "get_child_watcher"; "set_child_watcher"].

(** [repr] of a string and of a tuple of strings, as they appear in the
    messages of [event]. *)
Definition repr_str (s : string) : string := "'" +:+ s +:+ "'".

Definition repr_tuple (names : list string) : string :=
  "(" +:+ String.concat ", " (map repr_str names) +:+ ")".

(** [name in names]. *)
Definition name_in (name : string) (names : list string) : bool :=
  existsb (String.eqb name) names.

(** A class, seen through its qualified name and its [__bases__]. *)
Inductive Class : Type :=
| MkClass (qualname : string) (bases : list Class).

Definition qualname (c : Class) : string :=
  match c with MkClass n _ => n end.

Definition __bases__ (c : Class) : list Class :=
  match c with MkClass _ bs => bs end.

Definition class_eqb (a b : Class) : bool := String.eqb (qualname a) (qualname b).

(** [issubclass(c, target)]: [target] is [c] or an ancestor of it. *)
Fixpoint issubclass (c : Class) (target : Class) : bool :=
  match c with
  | MkClass n bs =>
      String.eqb n (qualname target) || existsb (fun b => issubclass b target) bs
  end.

Definition object : Class := MkClass "object" [].
Definition AbstractEventLoop : Class := MkClass "asyncio.AbstractEventLoop" [object].
Definition AbstractEventLoopPolicy : Class :=
  MkClass "asyncio.AbstractEventLoopPolicy" [object].
Definition BaseDefaultEventLoopPolicy : Class :=
  MkClass "asyncio.events.BaseDefaultEventLoopPolicy" [AbstractEventLoopPolicy].
Definition DefaultEventLoopPolicy : Class :=
  MkClass "asyncio.DefaultEventLoopPolicy" [BaseDefaultEventLoopPolicy].
Definition _ChangingEventLoopPolicy : Class :=
  MkClass "asyncify.events._ChangingEventLoopPolicy" [object].
Definition AsyncifyEventLoopPolicy : Class :=
  MkClass "asyncify.events.AsyncifyEventLoopPolicy"
    [DefaultEventLoopPolicy; _ChangingEventLoopPolicy].

(** [_ChangingEventLoopPolicyBaseMeta.change_base_policy]: the outcome
    and the class [cls] after the call. *)
Definition change_base_policy (cls : Class) (policy_cls : Class) : Outcome unit * Class :=
  if negb (existsb (class_eqb AbstractEventLoop) (__bases__ policy_cls))
  then (Raise (TypeError "policy_cls must inherited from asyncio.AbstractEventLoop"), cls)
  else (Ret tt, MkClass (qualname cls) [policy_cls]).

(** A policy instance: the methods its base policy provides (what
    [getattr(super(), name)] finds, bound to the instance) and the
    attributes set on the instance itself. *)
Record Policy : Type := {
  base_methods : gmap string PyObj;
  instance_dict : gmap string PyObj
}.

(** [getattr(super(), name)]. *)
Definition super_getattr (self : Policy) (name : string) : Outcome PyObj :=
  match base_methods self !! name with
  | Some m => Ret m
  | None => Raise (AttributeError name)
  end.

(** [getattr(self, name)]: the instance dictionary shadows the methods of
    the class. *)
Definition policy_getattr (self : Policy) (name : string) : Outcome PyObj :=
  match instance_dict self !! name with
  | Some m => Ret m
  | None => super_getattr self name
  end.

Definition policy_setattr (self : Policy) (name : string) (v : PyObj) : Policy :=
  {| base_methods := base_methods self;
     instance_dict := <[name := v]> (instance_dict self) |}.

(** [policy.name(args)]. *)
Definition call_method (self : Policy) (name : string) (ctx : Ctx) (args : Args)
  : Effect Val :=
  fun w =>
    match policy_getattr self name with
    | Raise e => (Raise e, w)
    | Ret m => invoke m ctx args w
    end.

(** The inner [def updated] of [event]. *)
Definition updated (func old : PyObj) : PyObj :=
  {| repr := "<function " +:+ wrapped_name old "updated" +:+ ">";
     py_type := FunctionType;
     is_coroutine_function := false;
     is_callable := true;
     dunder_name := Some (wrapped_name old "updated");
     asyncify_ignore := asyncify_ignore old;
     signature := signature old;
     call := fun ctx args w =>
       match invoke func ctx args w with
       | (Raise e, w') => (Raise e, w')
       | (Ret _, w') => invoke old ctx args w'
       end |}.

(** [AsyncifyEventLoopPolicy.event], on a platform named [platform]
    ([sys.platform]): the outcome and the policy after the call. *)
Definition event (platform : string) (self : Policy) (func : PyObj)
  : Outcome PyObj * Policy :=
  if negb (is_callable func) then (Raise (expected_callable func), self)
  else
    match dunder_name func with
    | None => (Raise (AttributeError "__name__"), self)
    | Some fname =>
        if String.eqb platform "win32"
           && name_in fname ["get_child_watcher"; "set_child_watcher"]
        then (Raise (RuntimeError (repr_str fname +:+ " is not supported on windows.")), self)
        else if negb (name_in fname _valid_names)
        then (Raise (RuntimeError (repr_str fname +:+ " is not a valid function name. "
                                   +:+ repr_tuple _valid_names +:+ " are valid.")), self)
        else
          match super_getattr self fname with
          | Raise e => (Raise e, self)
          | Ret old =>
              match dunder_name old with
              | None => (Raise (AttributeError "__name__"), self)
              | Some oname =>
                  let updated := updated func old in
                  (Ret updated, policy_setattr self oname updated)
              end
          end
    end.

End Objects.

Arguments Val : clear implicits.
Arguments Args : clear implicits.
Arguments PyObj : clear implicits.
Arguments PyClass : clear implicits.
Arguments HybridFunction : clear implicits.
Arguments Policy : clear implicits.

(** ** Sample programs

    Concrete callables over a world that is the log of the calls made so
    far; each entry names the callable and the thread it ran on. *)

Module Samples.

Definition Log : Type := list string.

Definition thread_tag (ctx : Ctx) : string :=
  match cur_thread ctx with
  | LoopThread => "@loop"
  | WorkerThread => "@worker"
  end.

Definition no_args : Args Log := {| positional := []; keywords := [] |}.

Definition loop_ctx : Ctx := {| cur_thread := LoopThread; running_loop := Some 0 |}.

Definition idle_ctx : Ctx := {| cur_thread := LoopThread; running_loop := None |}.

(** [def name(p1, ..., pn): return ret] *)
Definition plain_def (name : string) (n : nat) (ret : Val Log) : PyObj Log :=
  {| repr := "<function " +:+ name +:+ ">";
     py_type := FunctionType;
     is_coroutine_function := false;
     is_callable := true;
     dunder_name := Some name;
     asyncify_ignore := false;
     signature := Ret n;
     call := fun ctx _ w => (Ret ret, w ++ [name +:+ thread_tag ctx]) |}.

(** [async def name(p1, ..., pn): return ret] *)
Definition async_def (name : string) (n : nat) (ret : Val Log) : PyObj Log :=
  {| repr := "<function " +:+ name +:+ ">";
     py_type := FunctionType;
     is_coroutine_function := true;
     is_callable := true;
     dunder_name := Some name;
     asyncify_ignore := false;
     signature := Ret n;
     call := fun _ _ w =>
       (Ret (VCoroutine (fun ctx w' => (Ret ret, w' ++ [name +:+ thread_tag ctx]))), w) |}.

(** A callable that is not a Python function, such as the builtin [len]. *)
Definition builtin_len : PyObj Log :=
  {| repr := "<built-in function len>";
     py_type := OtherType;
     is_coroutine_function := false;
     is_callable := true;
     dunder_name := Some "len";
     asyncify_ignore := false;
     signature := Ret 1;
     call := fun ctx _ w => (Ret (VInt 0), w ++ ["len" +:+ thread_tag ctx]) |}.

(** An object that is not callable: the integer [42]. *)
Definition forty_two : PyObj Log :=
  {| repr := "42";
     py_type := OtherType;
     is_coroutine_function := false;
     is_callable := false;
     dunder_name := None;
     asyncify_ignore := false;
     signature := Raise (TypeError "42 is not a callable object");
     call := fun _ _ w => (Raise (TypeError "'int' object is not callable"), w) |}.

(** [def get(url): ...], the function of the docstring of [asyncify_func]. *)
Definition get : PyObj Log := plain_def "get" 1 (VStr "<html>").

(** [async def coroutine_func(): ...], the function of the docstring of
    [syncify_func]. *)
Definition coroutine_func : PyObj Log := async_def "coroutine_func" 0 VNone.

(** The class of the docstring of [asyncify_class], with an ignored
    helper added:
    [class RequestsClient: def __init__(self) / @ignore def close(self) /
     def request(self, method, url)]. *)
Definition RequestsClient : PyClass Log :=
  {| cls_id := 1;
     members := [ ("__init__", plain_def "__init__" 1 VNone);
                  ("close", ignore (plain_def "close" 1 VNone));
                  ("request", plain_def "request" 3 (VStr "<html>")) ] |}.

(** A class whose only eligible member is already a coroutine function. *)
Definition AsyncClient : PyClass Log :=
  {| cls_id := 2;
     members := [ ("__init__", plain_def "__init__" 1 VNone);
                  ("close", ignore (plain_def "close" 1 VNone));
                  ("fetch", async_def "fetch" 2 (VStr "<html>")) ] |}.

(** [class MyPolicy(asyncio.AbstractEventLoopPolicy)] *)
Definition MyPolicy : Class := MkClass "MyPolicy" [AbstractEventLoopPolicy].

(** [class MyLoop(asyncio.AbstractEventLoop)] *)
Definition MyLoop : Class := MkClass "MyLoop" [AbstractEventLoop].

(** [uvloop.EventLoopPolicy], the class of the docstring of
    [AsyncifyEventLoopPolicy]. *)
Definition uvloop_EventLoopPolicy : Class :=
  MkClass "uvloop.EventLoopPolicy" [BaseDefaultEventLoopPolicy].

(** A function of variadic positional arguments that returns how many
    it received. *)
Definition count_args (name : string) (n : nat) : PyObj Log :=
  {| repr := "<function " +:+ name +:+ ">";
     py_type := FunctionType;
     is_coroutine_function := false;
     is_callable := true;
     dunder_name := Some name;
     asyncify_ignore := false;
     signature := Ret n;
     call := fun ctx args w =>
       (Ret (VInt (Z.of_nat (List.length (positional args)))), w ++ [name +:+ thread_tag ctx]) |}.

(** The dispatcher of the specification's example:
    [foo = hybrid_function('foo', sync_cb, async_cb)] with [sync_cb]
    returning [1] and [async_cb] resolving to [2]. *)
Definition sync_cb : PyObj Log := plain_def "sync_cb" 0 (VInt 1).
Definition async_cb : PyObj Log := async_def "async_cb" 0 (VInt 2).

Definition hybrid (name : string) : HybridFunction Log :=
  {| _name := name; sync_callback := sync_cb; async_callback := async_cb;
     _instance := VNone |}.

Definition source_line (text : string) : FrameInfo :=
  {| code_context := Some [text +:+ String "010"%char EmptyString] |}.

(** A dispatcher used as a class member, with callbacks that report how
    many positional arguments they received. *)
Definition member : HybridFunction Log :=
  {| _name := "lookup";
     sync_callback := count_args "get_user" 1;
     async_callback := count_args "fetch_user" 1;
     _instance := VNone |}.

Definition falsy_instance : Val Log := VObj 5 false.
Definition truthy_instance : Val Log := VObj 6 true.

(** A policy over a base that implements [new_event_loop], and a hook
    for it. *)
Definition base_new_event_loop : PyObj Log :=
  {| repr := "<bound method new_event_loop>";
     py_type := MethodType;
     is_coroutine_function := false;
     is_callable := true;
     dunder_name := Some "new_event_loop";
     asyncify_ignore := false;
     signature := Ret 0;
     call := fun _ _ w => (Ret (VObj 9 true), w ++ ["base new_event_loop"]) |}.

Definition new_event_loop_hook : PyObj Log :=
  {| repr := "<function new_event_loop>";
     py_type := FunctionType;
     is_coroutine_function := false;
     is_callable := true;
     dunder_name := Some "new_event_loop";
     asyncify_ignore := false;
     signature := Ret 0;
     call := fun _ _ w => (Ret (VStr "ignored"), w ++ ["hook new_event_loop"]) |}.

Definition policy : Policy Log :=
  {| base_methods := {[ "new_event_loop" := base_new_event_loop ]};
     instance_dict := ∅ |}.

(** A second hook for [new_event_loop], the base method
    [get_event_loop], and a policy over a base that implements both. *)
Definition second_hook : PyObj Log :=
  {| repr := "<function new_event_loop>";
     py_type := FunctionType;
     is_coroutine_function := false;
     is_callable := true;
     dunder_name := Some "new_event_loop";
     asyncify_ignore := false;
     signature := Ret 0;
     call := fun _ _ w => (Ret VNone, w ++ ["second hook new_event_loop"]) |}.

Definition base_get_event_loop : PyObj Log :=
  {| repr := "<bound method get_event_loop>";
     py_type := MethodType;
     is_coroutine_function := false;
     is_callable := true;
     dunder_name := Some "get_event_loop";
     asyncify_ignore := false;
     signature := Ret 0;
     call := fun _ _ w => (Ret (VObj 9 true), w ++ ["base get_event_loop"]) |}.

Definition full_policy : Policy Log :=
  {| base_methods := {[ "new_event_loop" := base_new_event_loop;
                        "get_event_loop" := base_get_event_loop ]};
     instance_dict := ∅ |}.

(** A frame whose source is not available, as in an interactive console. *)
Definition no_source : FrameInfo := {| code_context := None |}.

End Samples.

(** ** Regular expressions: results *)

Lemma append_cons (x : ascii) (a b : string) : String x a +:+ b = String x (a +:+ b).
Proof. reflexivity. Qed.

Lemma append_assoc3 (a b c : string) : (a +:+ b) +:+ c = a +:+ (b +:+ c).
Proof. induction a as [|x a IH]; [reflexivity|]. rewrite !append_cons. now f_equal. Qed.

Lemma length_append (a b : string) :
  String.length (a +:+ b) = String.length a + String.length b.
Proof. induction a as [|x a IH]; [reflexivity|]. rewrite append_cons. cbn. now f_equal. Qed.

Lemma star_loop_hands_suffix {X : Type}
    (step : string -> (string -> option X) -> option X) (k : string -> option X) :
  hands_suffix step ->
  forall n s x, star_loop step k n s = Some x ->
    exists p s', s = p +:+ s' /\ k s' = Some x.
Proof.
  intros Hstep. induction n as [|n IH]; intros s x H; cbn [star_loop] in H.
  - exists EmptyString, s. now split.
  - destruct (step s _) as [y|] eqn:Hs.
    + injection H as ->.
      apply Hstep in Hs. destruct Hs as (p1 & s1 & -> & Hk).
      destruct (Nat.ltb (String.length s1) _); [|discriminate].
      apply IH in Hk. destruct Hk as (p2 & s2 & -> & Hk).
      exists (p1 +:+ p2), s2. split; [now rewrite append_assoc3|exact Hk].
    + exists EmptyString, s. now split.
Qed.

Lemma rmatch_hands_suffix {X : Type} (r : Regex) :
  hands_suffix (fun s (k : string -> option X) => rmatch r s k).
Proof.
  induction r as [c|p|r1 IH1 r2 IH2|r1 IH1 r2 IH2|r1 IH1]; intros s k x H; cbn in H.
  - destruct s as [|d s]; [discriminate|].
    destruct (Ascii.eqb c d); [|discriminate].
    exists (String d EmptyString), s. now split.
  - destruct s as [|d s]; [discriminate|].
    destruct (p d); [|discriminate].
    exists (String d EmptyString), s. now split.
  - apply IH1 in H. destruct H as (p1 & s1 & -> & H).
    apply IH2 in H. destruct H as (p2 & s2 & -> & H).
    exists (p1 +:+ p2), s2. split; [now rewrite append_assoc3|exact H].
  - destruct (rmatch r1 s k) as [y|] eqn:H1.
    + injection H as ->. now apply IH1 in H1.
    + now apply IH2 in H.
  - now apply (star_loop_hands_suffix _ k IH1) in H.
Qed.

(** The span [search] reports lies inside the text. *)
Lemma search_from_bounds (r : Regex) (s : string) (pos a b : nat) :
  search_from r pos s = Some (a, b) ->
  pos <= a /\ a <= b /\ b <= pos + String.length s.
Proof.
  revert pos. induction s as [|c s IH]; intros pos H; cbn in H.
  - destruct (rmatch r EmptyString _) as [rest|] eqn:Hm; [|discriminate].
    injection H as <- <-.
    apply (rmatch_hands_suffix r) in Hm. destruct Hm as (p & s' & Hs & [= ->]).
    apply (f_equal String.length) in Hs. rewrite length_append in Hs. cbn in *. lia.
  - destruct (rmatch r (String c s) _) as [rest|] eqn:Hm.
    + injection H as <- <-.
      apply (rmatch_hands_suffix r) in Hm. destruct Hm as (p & s' & Hs & [= ->]).
      apply (f_equal String.length) in Hs. rewrite length_append in Hs. cbn in *. lia.
    + apply IH in H. cbn. lia.
Qed.

Lemma search_bounds (r : Regex) (s : string) (a b : nat) :
  search r s = Some (a, b) -> a <= b /\ b <= String.length s.
Proof. intros H. apply search_from_bounds in H. lia. Qed.

(** The pattern of the dispatcher only matches text that has [await] in
    it. *)
Lemma regex_match_starts_with_await {X : Type} (s : string)
    (k : string -> option X) (x : X) :
  rmatch regex s k = Some x -> String.prefix "await" s = true.
Proof.
  unfold regex. cbn [RStr rmatch]. intros H.
  repeat match type of H with
  | match ?s with EmptyString => _ | String _ _ => _ end = _ =>
      destruct s as [|? s]; [discriminate|];
      let E := fresh "E" in
      destruct (Ascii.eqb _ _) eqn:E in H; [|discriminate];
      apply Ascii.eqb_eq in E; subst
  end.
  cbn. now destruct s.
Qed.

Lemma search_from_regex_has_await (s : string) (pos a b : nat) :
  search_from regex pos s = Some (a, b) -> contains "await" s = true.
Proof.
  revert pos. induction s as [|c s IH]; intros pos H; cbn [search_from] in H.
  - destruct (rmatch regex EmptyString _) eqn:Hm; [|discriminate].
    apply regex_match_starts_with_await in Hm. discriminate.
  - destruct (rmatch regex (String c s) _) eqn:Hm.
    + apply regex_match_starts_with_await in Hm.
      cbn [contains]. now rewrite Hm.
    + apply IH in H. cbn [contains]. rewrite H. apply orb_true_r.
Qed.

(** ** func.py: results *)

Lemma asyncify_func_cases {World} (f : PyObj World) :
  asyncify_func f =
    if is_coroutine_function f then Ret f
    else if is_callable f then Raise (expected_callable f)
    else Ret (async_func f).
Proof. reflexivity. Qed.

(** Awaiting what the wrapper returns, in a task of a running loop, is
    the call of the wrapped object on a worker thread. *)
Lemma async_func_await {World} (f : PyObj World) (ctx ctx' : Ctx) (l : Loop)
    (args : Args World) (w : World) :
  running_loop ctx' = Some l ->
  exists coro,
    call (async_func f) ctx args w = (Ret coro, w)
    /\ await coro ctx' w = invoke f worker_ctx args w.
Proof.
  intros Hl. eexists. split; [reflexivity|].
  cbn. unfold get_running_loop. rewrite Hl. reflexivity.
Qed.

(** C1 (code defect): [asyncify_func] rejects every callable that is not a
    coroutine function with the [TypeError] meant for objects that are
    not callable, so no wrapper is produced for it. *)
Theorem asyncify_func_rejects_callable {World} (f : PyObj World) :
  is_callable f = true ->
  is_coroutine_function f = false ->
  asyncify_func f = Raise (expected_callable f).
Proof.
  intros Hc Hn. unfold asyncify_func. now rewrite Hn, Hc.
Qed.

Lemma asyncify_func_rejects_callable_witness :
  is_callable Samples.get = true
  /\ is_coroutine_function Samples.get = false
  /\ asyncify_func Samples.get
     = Raise (TypeError "Expected a callable function, not <function get>").
Proof.
  split; [reflexivity|]. split; [reflexivity|].
  apply (asyncify_func_rejects_callable Samples.get); reflexivity.
Defined.

(** C2 (code defect): [asyncify_func] raises at wrap time exactly when its
    argument is callable and not a coroutine function; an argument that
    is not callable is wrapped without an error. *)
Theorem asyncify_func_raises_iff {World} (f : PyObj World) :
  is_raise (asyncify_func f) = is_callable f && negb (is_coroutine_function f).
Proof.
  unfold asyncify_func.
  destruct (is_coroutine_function f), (is_callable f); reflexivity.
Qed.

Example asyncify_func_wraps_non_callable :
  asyncify_func Samples.forty_two = Ret (async_func Samples.forty_two).
Proof. reflexivity. Qed.

(** The sibling [syncify_func] raises exactly for objects that are not
    callable. *)
Lemma syncify_func_raises_iff {World} (f : PyObj World) :
  is_raise (syncify_func f) = negb (is_callable f) && negb (isfunction f && negb (is_coroutine_function f)).
Proof.
  unfold syncify_func.
  destruct (isfunction f), (is_coroutine_function f), (is_callable f); reflexivity.
Qed.

(** C8 (amended): for every Python function [f] that is not a coroutine
    function, [syncify_func f] is [f]; for every coroutine function [g],
    [asyncify_func g] is [g]. *)
Theorem syncify_asyncify_identity {World} (f g : PyObj World) :
  isfunction f = true ->
  is_coroutine_function f = false ->
  is_coroutine_function g = true ->
  syncify_func f = Ret f /\ asyncify_func g = Ret g.
Proof.
  intros Hf Hn Hg. split.
  - unfold syncify_func. now rewrite Hf, Hn.
  - unfold asyncify_func. now rewrite Hg.
Qed.

Lemma syncify_asyncify_identity_witness :
  syncify_func Samples.get = Ret Samples.get
  /\ asyncify_func Samples.coroutine_func = Ret Samples.coroutine_func.
Proof.
  apply (syncify_asyncify_identity Samples.get Samples.coroutine_func); reflexivity.
Defined.

(** C8, as stated, fails: the builtin [len] is callable and does not
    return an awaitable, yet [syncify_func] returns a new wrapper for it,
    a function object where [len] is none. *)
Lemma syncify_func_wraps_builtin :
  is_callable Samples.builtin_len = true
  /\ is_coroutine_function Samples.builtin_len = false
  /\ fst (call Samples.builtin_len Samples.idle_ctx Samples.no_args []) = Ret (VInt 0)
  /\ syncify_func Samples.builtin_len = Ret (sync_func Samples.builtin_len)
  /\ syncify_func Samples.builtin_len <> Ret Samples.builtin_len.
Proof.
  repeat (split; [reflexivity|]).
  intros H.
  apply (f_equal (fun o => match o with Ret x => isfunction x | Raise _ => false end)) in H.
  discriminate H.
Qed.

(** What the docstring of [syncify_func] describes: driving a loop that
    is not running runs the coroutine to completion and hands back its
    result. *)
Lemma run_until_complete_idle {World} (ctx : Ctx) (l : Loop)
    (body : Ctx -> World -> Outcome (Val World) * World) (w : World) :
  running_loop ctx = None ->
  run_until_complete ctx l (VCoroutine body) w
  = body {| cur_thread := cur_thread ctx; running_loop := Some l |} w.
Proof.
  intros Hn. unfold run_until_complete, _check_running. now rewrite Hn.
Qed.

Lemma sync_func_no_loop {World} (g : PyObj World) (ctx : Ctx) (args : Args World) (w : World) :
  running_loop ctx = None ->
  call (sync_func g) ctx args w = (Raise (RuntimeError "no running event loop"), w).
Proof.
  intros Hn. cbn. unfold get_running_loop. now rewrite Hn.
Qed.

Lemma sync_func_running_loop {World} (g : PyObj World) (ctx : Ctx) (l : Loop)
    (args : Args World) (w w' : World) (future : Val World) :
  running_loop ctx = Some l ->
  invoke g ctx args w = (Ret future, w') ->
  call (sync_func g) ctx args w
  = (Raise (RuntimeError "This event loop is already running"), w').
Proof.
  intros Hl Hg. cbn. unfold get_running_loop. rewrite Hl, Hg.
  unfold run_until_complete, _check_running. rewrite Hl, Nat.eqb_refl. reflexivity.
Qed.

(** C4 (code defect): a call of the wrapper made by [syncify_func] never
    returns a value: without a running loop the loop lookup fails, and
    with one the loop refuses to be driven while it is running. *)
Theorem sync_func_never_returns {World} (g : PyObj World) (ctx : Ctx)
    (args : Args World) (w : World) :
  is_raise (fst (call (sync_func g) ctx args w)) = true.
Proof.
  destruct (running_loop ctx) as [l|] eqn:Hl.
  - destruct (invoke g ctx args w) as [[future|e] w'] eqn:Hg.
    + now rewrite (sync_func_running_loop g ctx l args w w' future).
    + cbn. unfold get_running_loop. now rewrite Hl, Hg.
  - now rewrite sync_func_no_loop.
Qed.

Example syncify_coroutine_func_running :
  syncify_func Samples.coroutine_func = Ret (sync_func Samples.coroutine_func)
  /\ call (sync_func Samples.coroutine_func) Samples.loop_ctx Samples.no_args []
     = (Raise (RuntimeError "This event loop is already running"), []).
Proof. split; reflexivity. Qed.

Example syncify_coroutine_func_idle :
  call (sync_func Samples.coroutine_func) Samples.idle_ctx Samples.no_args []
  = (Raise (RuntimeError "no running event loop"), []).
Proof. reflexivity. Qed.

(** ** cls.py: results *)

Lemma assoc_get_set_other {World} (name n : string) (v : PyObj World)
    (l : list (string * PyObj World)) :
  n <> name -> assoc_get name (assoc_set n v l) = assoc_get name l.
Proof.
  intros Hne. induction l as [|[k x] l IH]; cbn.
  - destruct (String.eqb n name) eqn:E; [|reflexivity].
    apply String.eqb_eq in E. contradiction.
  - destruct (String.eqb k n) eqn:Ekn; cbn.
    + apply String.eqb_eq in Ekn. subst k.
      destruct (String.eqb n name) eqn:E; [|reflexivity].
      apply String.eqb_eq in E. contradiction.
    + now rewrite IH.
Qed.

(** Members the loop skips (non-functions, ignored members, names that
    start with two underscores) keep their value, whatever the outcome. *)
Lemma asyncify_members_skipped_untouched {World}
    (ms : list (string * PyObj World)) (cls : PyClass World) (name : string) :
  (forall f, In (name, f) ms -> skipped name f = true) ->
  getattr (snd (asyncify_members ms cls)) name = getattr cls name.
Proof.
  revert cls. induction ms as [|[n f] ms IH]; intros cls Hskip; cbn; [reflexivity|].
  assert (Hrest : forall f0, In (name, f0) ms -> skipped name f0 = true)
    by (intros f0 Hin; apply Hskip; now right).
  destruct (skipped n f) eqn:Hs.
  - now apply IH.
  - destruct (asyncify_func f) as [f'|e]; cbn; [|reflexivity].
    rewrite IH by assumption.
    unfold getattr, setattr; cbn.
    apply assoc_get_set_other. intros ->.
    rewrite Hskip in Hs by now left. discriminate.
Qed.

Lemma asyncify_members_type_error {World}
    (ms : list (string * PyObj World)) (cls : PyClass World)
    (name : string) (func : PyObj World) :
  In (name, func) ms ->
  skipped name func = false ->
  is_callable func = true ->
  is_coroutine_function func = false ->
  is_type_error (fst (asyncify_members ms cls)) = true.
Proof.
  intros Hin Hs Hc Hn. revert cls.
  induction ms as [|[n f] ms IH]; intros cls; [destruct Hin|].
  cbn. destruct Hin as [Heq|Hin].
  - injection Heq as -> ->. rewrite Hs. unfold asyncify_func. now rewrite Hn, Hc.
  - destruct (skipped n f); [now apply IH|].
    unfold asyncify_func.
    destruct (is_coroutine_function f); [now apply IH|].
    destruct (is_callable f); [reflexivity|now apply IH].
Qed.

(** C3 (code defect): when the class has a member that the loop does not
    skip and that is an ordinary callable function, [asyncify_class]
    raises the [TypeError] of [asyncify_func] instead of replacing it. *)
Theorem asyncify_class_rejects_methods {World} (cls : PyClass World)
    (name : string) (func : PyObj World) :
  In (name, func) (getmembers cls) ->
  skipped name func = false ->
  is_callable func = true ->
  is_coroutine_function func = false ->
  is_type_error (fst (asyncify_class cls)) = true.
Proof.
  intros Hin Hs Hc Hn. unfold asyncify_class.
  now apply (asyncify_members_type_error _ cls name func).
Qed.

Lemma asyncify_class_rejects_methods_witness :
  In ("request", Samples.plain_def "request" 3 (VStr "<html>"))
     (getmembers Samples.RequestsClient)
  /\ is_type_error (fst (asyncify_class Samples.RequestsClient)) = true.
Proof.
  assert (Hin : In ("request", Samples.plain_def "request" 3 (VStr "<html>"))
                   (getmembers Samples.RequestsClient))
    by (cbn; right; right; left; reflexivity).
  split; [exact Hin|].
  apply (asyncify_class_rejects_methods Samples.RequestsClient "request" _ Hin);
    reflexivity.
Defined.

Example asyncify_class_RequestsClient :
  asyncify_class Samples.RequestsClient
  = (Raise (TypeError "Expected a callable function, not <function request>"),
     Samples.RequestsClient).
Proof. reflexivity. Qed.

Example asyncify_class_AsyncClient :
  asyncify_class Samples.AsyncClient = (Ret 2, Samples.AsyncClient).
Proof. reflexivity. Qed.

(** ** events.py: the base policy *)

Lemma change_base_policy_cases (cls policy_cls : Class) :
  change_base_policy cls policy_cls =
    if existsb (class_eqb AbstractEventLoop) (__bases__ policy_cls)
    then (Ret tt, MkClass (qualname cls) [policy_cls])
    else (Raise (TypeError "policy_cls must inherited from asyncio.AbstractEventLoop"), cls).
Proof.
  unfold change_base_policy.
  now destruct (existsb (class_eqb AbstractEventLoop) (__bases__ policy_cls)).
Qed.

(** C5 (code defect): [change_base_policy] tests for the event loop class
    among the direct bases, not for descent from the event loop policy
    class: policy classes are rejected with [TypeError] (the one of the
    package's own documentation included), and a loop class is accepted. *)
Theorem change_base_policy_tests_loop_base :
  (issubclass Samples.MyPolicy AbstractEventLoopPolicy = true
   /\ change_base_policy AsyncifyEventLoopPolicy Samples.MyPolicy
      = (Raise (TypeError "policy_cls must inherited from asyncio.AbstractEventLoop"),
         AsyncifyEventLoopPolicy))
  /\ (issubclass Samples.uvloop_EventLoopPolicy AbstractEventLoopPolicy = true
      /\ change_base_policy AsyncifyEventLoopPolicy Samples.uvloop_EventLoopPolicy
         = (Raise (TypeError "policy_cls must inherited from asyncio.AbstractEventLoop"),
            AsyncifyEventLoopPolicy))
  /\ (issubclass Samples.MyLoop AbstractEventLoopPolicy = false
      /\ change_base_policy AsyncifyEventLoopPolicy Samples.MyLoop
         = (Ret tt, MkClass "asyncify.events.AsyncifyEventLoopPolicy" [Samples.MyLoop])).
Proof. repeat split. Qed.

(** ** hybrid.py: results *)

(** C9: constructing a dispatcher from two callbacks whose parameter
    counts differ raises [TypeError]. *)
Theorem init_rejects_arity_mismatch {World} (name : string)
    (sync_callback async_callback : PyObj World) (n m : nat) :
  signature sync_callback = Ret n ->
  signature async_callback = Ret m ->
  n <> m ->
  __init__ name sync_callback async_callback
  = Raise (TypeError "Both function signatures must be the same.").
Proof.
  intros Hs Ha Hne. unfold __init__. rewrite Hs, Ha.
  apply Nat.eqb_neq in Hne. now rewrite Hne.
Qed.

Lemma init_rejects_arity_mismatch_witness :
  hybrid_function "foo" (Samples.plain_def "sync" 2 (@VNone Samples.Log))
                        (Samples.async_def "async" 1 VNone)
  = Raise (TypeError "Both function signatures must be the same.").
Proof.
  apply (init_rejects_arity_mismatch "foo" (Samples.plain_def "sync" 2 VNone)
           (Samples.async_def "async" 1 VNone) 2 1); [reflexivity | reflexivity | lia].
Defined.

Lemma init_accepts_equal_arity {World} (name : string)
    (sync_callback async_callback : PyObj World) (n : nat) :
  signature sync_callback = Ret n ->
  signature async_callback = Ret n ->
  __init__ name sync_callback async_callback
  = Ret {| _name := name; sync_callback := sync_callback;
           async_callback := async_callback; _instance := VNone |}.
Proof.
  intros Hs Ha. unfold __init__. now rewrite Hs, Ha, Nat.eqb_refl.
Qed.

Lemma init_fields {World} (name : string) (s a : PyObj World) (h : HybridFunction World) :
  __init__ name s a = Ret h ->
  h = {| _name := name; sync_callback := s; async_callback := a; _instance := VNone |}.
Proof.
  unfold __init__. destruct (signature s); [|discriminate].
  destruct (signature a); [|discriminate].
  destruct (negb _); [discriminate|]. now intros [= <-].
Qed.

Lemma get_fields {World} (self bound : HybridFunction World) (instance : Val World) :
  __get__ self instance = Ret bound ->
  bound = {| _name := _name self; sync_callback := sync_callback self;
             async_callback := async_callback self; _instance := instance |}.
Proof.
  unfold __get__.
  destruct (__init__ _ _ _) as [h|e] eqn:Hi; [|discriminate].
  apply init_fields in Hi. subst h. now intros [= <-].
Qed.

(** The walk over the stack skips a frame whose line does not contain
    the name, and stops at the first whose line does. *)
Lemma _get_frame_skip {World} (self : HybridFunction World) (frame : FrameInfo)
    (rest : list FrameInfo) :
  (forall l ls, code_context frame = Some (l :: ls) -> contains (_name self) l = false) ->
  _get_frame self (frame :: rest) = _get_frame self rest.
Proof.
  intros Hno. cbn. destruct (code_context frame) as [[|l ls]|]; try reflexivity.
  now rewrite (Hno l ls).
Qed.

Lemma _get_frame_hit {World} (self : HybridFunction World) (frame : FrameInfo)
    (rest : list FrameInfo) (line : string) (more : list string) :
  code_context frame = Some (line :: more) ->
  contains (_name self) line = true ->
  _get_frame self (frame :: rest) = Ret line.
Proof. intros Hc Hin. cbn. now rewrite Hc, Hin. Qed.

(** A line without [await] is never classified as awaited. *)
Lemma _check_regex_needs_await {World} (self : HybridFunction World) (text : string) :
  _check_regex self text = true -> contains "await" text = true.
Proof.
  unfold _check_regex, search.
  destruct (search_from regex 0 text) as [[a b]|] eqn:Hs; [|discriminate].
  intros _. now apply search_from_regex_has_await in Hs.
Qed.

(** C6 (amended): for a dispatcher made by [hybrid_function], when the
    registered name occurs in the caller's source line and not in the
    line the dispatcher itself is executing, the call returns the result
    of the async callback if the caller's line, stripped, matches the
    await pattern with the name inside the matched span, and the result
    of the sync callback otherwise. *)
Theorem hybrid_call_dispatch {World} (name : string)
    (sync_cb async_cb : PyObj World) (self : HybridFunction World)
    (own caller : FrameInfo) (outer : list FrameInfo)
    (line : string) (more : list string)
    (ctx : Ctx) (args : Args World) (w : World) :
  hybrid_function name sync_cb async_cb = Ret self ->
  (forall l ls, code_context own = Some (l :: ls) -> contains name l = false) ->
  code_context caller = Some (line :: more) ->
  contains name line = true ->
  __call__ self (Some (own :: caller :: outer)) ctx args w
  = if _check_regex self (strip line)
    then invoke async_cb ctx args w
    else invoke sync_cb ctx args w.
Proof.
  intros Hmk Hown Hcaller Hin. apply init_fields in Hmk. subst self.
  unfold __call__. cbn [_instance truth async_callback sync_callback].
  rewrite (_get_frame_skip _ own) by exact Hown.
  now rewrite (_get_frame_hit _ caller outer line more).
Qed.

Lemma hybrid_call_dispatch_witness :
  __call__ (Samples.hybrid "foo")
    (Some [own_frame; Samples.source_line "    x = await foo()"])
    Samples.loop_ctx Samples.no_args []
  = invoke Samples.async_cb Samples.loop_ctx Samples.no_args [].
Proof.
  refine (hybrid_call_dispatch "foo" Samples.sync_cb Samples.async_cb
            (Samples.hybrid "foo") own_frame
            (Samples.source_line "    x = await foo()") []
            ("    x = await foo()" +:+ String "010"%char EmptyString) []
            Samples.loop_ctx Samples.no_args [] _ _ _ _).
  - reflexivity.
  - intros l ls [= <- <-]. reflexivity.
  - reflexivity.
  - reflexivity.
Defined.

Example hybrid_function_foo :
  hybrid_function "foo" Samples.sync_cb Samples.async_cb = Ret (Samples.hybrid "foo").
Proof. reflexivity. Qed.

(** The example of the specification: a bare call yields [1], an awaited
    call yields a coroutine that resolves to [2]. *)
Example hybrid_foo_bare_call :
  fst (__call__ (Samples.hybrid "foo")
         (Some [own_frame; Samples.source_line "    x = foo()"])
         Samples.loop_ctx Samples.no_args [])
  = Ret (VInt 1).
Proof. reflexivity. Qed.

Example hybrid_foo_awaited_call :
  exists coro,
    fst (__call__ (Samples.hybrid "foo")
           (Some [own_frame; Samples.source_line "    x = await foo()"])
           Samples.loop_ctx Samples.no_args [])
    = Ret coro
    /\ fst (await coro Samples.loop_ctx []) = Ret (VInt 2).
Proof. eexists. split; reflexivity. Qed.

(** The pattern on a few lines: the span runs from [await] to the last
    closing parenthesis of the line, so another awaited call on the line
    is enough for the name to be found inside it. *)
Example search_await_foo : search regex "x = await foo(1, (2)) + bar()" = Some (4, 29).
Proof. reflexivity. Qed.

Example _check_regex_samples :
  _check_regex (Samples.hybrid "foo") "await foo()" = true
  /\ _check_regex (Samples.hybrid "foo") "x = await client.foo(1)" = true
  /\ _check_regex (Samples.hybrid "foo") "foo()" = false
  /\ _check_regex (Samples.hybrid "foo") "awaitfoo()" = false
  /\ _check_regex (Samples.hybrid "foo") "foo(await bar)" = false
  /\ _check_regex (Samples.hybrid "foo") "x = await bar() + foo()" = true.
Proof. repeat split. Qed.

(** C6, as stated, fails in both directions.  A dispatcher named [frame]
    finds its name in the line it is itself executing and calls the sync
    callback although the caller's line is [await frame()]; a dispatcher
    named [foo] called through an alias finds its name one frame further
    out and calls the async callback although the caller's line has no
    [await]. *)
Lemma hybrid_dispatch_not_by_caller_line :
  (_check_regex (Samples.hybrid "frame") (strip "    x = await frame()") = true
   /\ fst (__call__ (Samples.hybrid "frame")
             (Some [own_frame; Samples.source_line "    x = await frame()"])
             Samples.loop_ctx Samples.no_args [])
      = Ret (VInt 1))
  /\ (_check_regex (Samples.hybrid "foo") (strip "    return f()") = false
      /\ __call__ (Samples.hybrid "foo")
           (Some [own_frame; Samples.source_line "    return f()";
                  Samples.source_line "    x = await run(foo)"])
           Samples.loop_ctx Samples.no_args []
         = invoke Samples.async_cb Samples.loop_ctx Samples.no_args []
      /\ fst (__call__ (Samples.hybrid "foo")
                (Some [own_frame; Samples.source_line "    return f()";
                       Samples.source_line "    x = await run(foo)"])
                Samples.loop_ctx Samples.no_args [])
         <> Ret (VInt 1)).
Proof.
  split; [split; reflexivity|].
  split; [reflexivity|]. split; [reflexivity|].
  cbv. discriminate.
Qed.

(** C10: a dispatcher fetched from an instance passes the instance to the
    callback as first argument when the instance is truthy, and passes
    the arguments as they are when it is falsy. *)
Theorem bound_call_prepends_truthy_instance {World}
    (self bound : HybridFunction World) (instance : Val World)
    (stack : list FrameInfo) (line : string)
    (ctx : Ctx) (args : Args World) (w : World) :
  __get__ self instance = Ret bound ->
  _get_frame bound stack = Ret line ->
  __call__ bound (Some stack) ctx args w
  = invoke (if _check_regex bound (strip line)
            then async_callback self else sync_callback self)
      ctx (if truth instance then prepend instance args else args) w.
Proof.
  intros Hget Hframe. apply get_fields in Hget.
  unfold __call__. rewrite Hframe. subst bound. cbn [_instance async_callback sync_callback].
  now destruct (_check_regex _ _).
Qed.

Lemma bound_call_prepends_truthy_instance_witness :
  __call__ {| _name := "lookup";
              sync_callback := Samples.count_args "get_user" 1;
              async_callback := Samples.count_args "fetch_user" 1;
              _instance := Samples.falsy_instance |}
    (Some [own_frame; Samples.source_line "    user = client.lookup(42)"])
    Samples.loop_ctx {| positional := [VInt 42]; keywords := [] |} []
  = invoke (Samples.count_args "get_user" 1) Samples.loop_ctx
      {| positional := [VInt 42]; keywords := [] |} [].
Proof.
  apply (bound_call_prepends_truthy_instance Samples.member _ Samples.falsy_instance
           [own_frame; Samples.source_line "    user = client.lookup(42)"]
           ("    user = client.lookup(42)" +:+ String "010"%char EmptyString)
           Samples.loop_ctx {| positional := [VInt 42]; keywords := [] |} []);
    reflexivity.
Defined.

Example member_call_on_falsy_instance :
  __get__ Samples.member Samples.falsy_instance
  = Ret {| _name := "lookup";
           sync_callback := Samples.count_args "get_user" 1;
           async_callback := Samples.count_args "fetch_user" 1;
           _instance := Samples.falsy_instance |}
  /\ fst (__call__ {| _name := "lookup";
              sync_callback := Samples.count_args "get_user" 1;
              async_callback := Samples.count_args "fetch_user" 1;
              _instance := Samples.falsy_instance |}
            (Some [own_frame; Samples.source_line "    user = client.lookup(42)"])
            Samples.loop_ctx {| positional := [VInt 42]; keywords := [] |} [])
     = Ret (VInt 1).
Proof. split; reflexivity. Qed.

Example member_call_on_truthy_instance :
  fst (__call__ {| _name := "lookup";
              sync_callback := Samples.count_args "get_user" 1;
              async_callback := Samples.count_args "fetch_user" 1;
              _instance := Samples.truthy_instance |}
         (Some [own_frame; Samples.source_line "    user = client.lookup(42)"])
         Samples.loop_ctx {| positional := [VInt 42]; keywords := [] |} [])
  = Ret (VInt 2).
Proof. reflexivity. Qed.

(** ** events.py: hooks *)

Lemma event_success {World} (platform : string) (self self' : Policy World)
    (func upd : PyObj World) :
  event platform self func = (Ret upd, self') ->
  exists name old oname,
    dunder_name func = Some name
    /\ name_in name _valid_names = true
    /\ super_getattr self name = Ret old
    /\ dunder_name old = Some oname
    /\ upd = updated func old
    /\ self' = policy_setattr self oname upd.
Proof.
  unfold event.
  destruct (negb (is_callable func)); [discriminate|].
  destruct (dunder_name func) as [name|]; [|discriminate].
  destruct (_ && _); [discriminate|].
  destruct (name_in name _valid_names) eqn:Hvalid; [|discriminate]. cbn [negb].
  destruct (super_getattr self name) as [old|e] eqn:Hold; [|discriminate].
  destruct (dunder_name old) as [oname|] eqn:Honame; [|discriminate].
  intros [= <- <-]. exists name, old, oname. repeat split; assumption.
Qed.

Lemma call_registered_hook {World} (self : Policy World) (func old : PyObj World)
    (name : string) (ctx : Ctx) (args : Args World) (w : World) :
  call_method (policy_setattr self name (updated func old)) name ctx args w
  = match invoke func ctx args w with
    | (Raise e, w') => (Raise e, w')
    | (Ret _, w') => invoke old ctx args w'
    end.
Proof.
  unfold call_method, policy_getattr, policy_setattr. cbn [instance_dict].
  rewrite lookup_insert_eq. reflexivity.
Qed.

(** C7: after [event] has registered [func] under a recognized name, a
    call of the policy's method of that name calls [func] with the
    arguments of the call, drops what it returns, then calls the base
    policy's method with the same arguments and returns its result; an
    exception of [func] ends the call.  The base policy's method carries
    the name it is defined under. *)
Theorem event_hook_then_base {World} (platform : string) (self self' : Policy World)
    (func upd old : PyObj World) (name : string)
    (ctx : Ctx) (args : Args World) (w : World) :
  event platform self func = (Ret upd, self') ->
  dunder_name func = Some name ->
  super_getattr self name = Ret old ->
  dunder_name old = Some name ->
  name_in name _valid_names = true
  /\ call_method self' name ctx args w
     = match invoke func ctx args w with
       | (Raise e, w') => (Raise e, w')
       | (Ret _, w') => invoke old ctx args w'
       end.
Proof.
  intros Hev Hname Hold Honame.
  destruct (event_success platform self self' func upd Hev)
    as (name' & old' & oname' & Hn' & Hvalid & Ho' & Hon' & -> & ->).
  rewrite Hname in Hn'. injection Hn' as <-.
  rewrite Hold in Ho'. injection Ho' as <-.
  rewrite Honame in Hon'. injection Hon' as <-.
  split; [exact Hvalid|]. apply call_registered_hook.
Qed.

Lemma event_hook_then_base_witness :
  call_method
    (snd (event "linux" Samples.policy Samples.new_event_loop_hook))
    "new_event_loop" Samples.idle_ctx Samples.no_args []
  = (Ret (VObj 9 true), ["hook new_event_loop"; "base new_event_loop"]).
Proof.
  refine (proj2 (event_hook_then_base "linux" Samples.policy
            (snd (event "linux" Samples.policy Samples.new_event_loop_hook))
            Samples.new_event_loop_hook
            (updated Samples.new_event_loop_hook Samples.base_new_event_loop)
            Samples.base_new_event_loop "new_event_loop"
            Samples.idle_ctx Samples.no_args [] _ _ _ _));
    reflexivity.
Defined.

Example event_unknown_name :
  fst (event "linux" Samples.policy (Samples.plain_def "close_loop" 0 VNone))
  = Raise (RuntimeError
      ("'close_loop' is not a valid function name. "
       +:+ "('get_event_loop', 'set_event_loop', 'new_event_loop', "
       +:+ "'get_child_watcher', 'set_child_watcher') are valid.")).
Proof. reflexivity. Qed.

(** ** func.py: further properties *)

(** X1: [asyncify_func] is idempotent: what it returns, it returns
    unchanged when applied again. *)
Theorem asyncify_func_idempotent {World} (f g : PyObj World) :
  asyncify_func f = Ret g -> asyncify_func g = Ret g.
Proof.
  unfold asyncify_func at 1.
  destruct (is_coroutine_function f) eqn:Hf.
  - intros [= <-]. unfold asyncify_func. now rewrite Hf.
  - destruct (is_callable f); [discriminate|]. now intros [= <-].
Qed.

Lemma asyncify_func_idempotent_witness :
  asyncify_func (async_func Samples.forty_two) = Ret (async_func Samples.forty_two).
Proof.
  apply (asyncify_func_idempotent Samples.forty_two). reflexivity.
Defined.

(** X2: [syncify_func] is idempotent: what it returns, it returns
    unchanged when applied again. *)
Theorem syncify_func_idempotent {World} (f g : PyObj World) :
  syncify_func f = Ret g -> syncify_func g = Ret g.
Proof.
  unfold syncify_func at 1.
  destruct (isfunction f && negb (is_coroutine_function f)) eqn:Hf.
  - intros [= <-]. unfold syncify_func. now rewrite Hf.
  - destruct (negb (is_callable f)); [discriminate|]. now intros [= <-].
Qed.

Lemma syncify_func_idempotent_witness :
  syncify_func (sync_func Samples.coroutine_func) = Ret (sync_func Samples.coroutine_func).
Proof.
  apply (syncify_func_idempotent Samples.coroutine_func). reflexivity.
Defined.

(** X3: for a callable, [syncify_func] does not raise, and what it
    returns is a callable Python function that is not a coroutine
    function. *)
Theorem syncify_func_returns_sync_function {World} (f : PyObj World) :
  is_callable f = true ->
  exists g, syncify_func f = Ret g
            /\ is_callable g = true
            /\ isfunction g = true
            /\ is_coroutine_function g = false.
Proof.
  intros Hc. unfold syncify_func.
  destruct (isfunction f) eqn:Hf, (is_coroutine_function f) eqn:Hn; cbn [andb negb];
    rewrite ?Hc; cbn [negb]; eexists; (split; [reflexivity|]); auto.
Qed.

Lemma syncify_func_returns_sync_function_witness :
  exists g, syncify_func Samples.builtin_len = Ret g
            /\ is_callable g = true
            /\ isfunction g = true
            /\ is_coroutine_function g = false.
Proof.
  apply (syncify_func_returns_sync_function Samples.builtin_len). reflexivity.
Defined.

(** X4: an object that is not callable (and is not a function object) is
    rejected by [syncify_func] at wrap time with [TypeError]. *)
Theorem syncify_func_rejects_non_callable {World} (f : PyObj World) :
  is_callable f = false ->
  isfunction f = false ->
  syncify_func f = Raise (expected_callable f).
Proof.
  intros Hc Hf. unfold syncify_func. now rewrite Hf, Hc.
Qed.

Lemma syncify_func_rejects_non_callable_witness :
  syncify_func Samples.forty_two
  = Raise (TypeError "Expected a callable function, not 42").
Proof.
  apply (syncify_func_rejects_non_callable Samples.forty_two); reflexivity.
Defined.

(** X5: [asyncify_func] rejects whatever [syncify_func] returns for a
    callable: the two decorators do not compose in this order. *)
Theorem asyncify_after_syncify_raises {World} (f g : PyObj World) :
  is_callable f = true ->
  syncify_func f = Ret g ->
  asyncify_func g = Raise (expected_callable g).
Proof.
  intros Hc. unfold syncify_func.
  destruct (isfunction f && negb (is_coroutine_function f)) eqn:Hf.
  - intros [= <-]. apply andb_true_iff in Hf. destruct Hf as [_ Hn].
    apply negb_true_iff in Hn. unfold asyncify_func. now rewrite Hn, Hc.
  - rewrite Hc. cbn [negb]. now intros [= <-].
Qed.

Lemma asyncify_after_syncify_raises_witness :
  asyncify_func (sync_func Samples.coroutine_func)
  = Raise (TypeError "Expected a callable function, not <function coroutine_func>").
Proof.
  apply (asyncify_after_syncify_raises Samples.coroutine_func); reflexivity.
Defined.

(** X6: a call of the wrapper made by [syncify_func] leaves the world as
    it was when no loop is running (the wrapped callable is not called);
    with a running loop the wrapped callable is called, and its effects
    stay, before the call fails. *)
Theorem sync_func_effects {World} (g : PyObj World) (ctx : Ctx)
    (args : Args World) (w : World) :
  snd (call (sync_func g) ctx args w)
  = match running_loop ctx with
    | Some _ => snd (invoke g ctx args w)
    | None => w
    end.
Proof.
  destruct (running_loop ctx) as [l|] eqn:Hl.
  - destruct (invoke g ctx args w) as [[future|e] w'] eqn:Hg.
    + now rewrite (sync_func_running_loop g ctx l args w w' future).
    + cbn. unfold get_running_loop. now rewrite Hl, Hg.
  - now rewrite sync_func_no_loop.
Qed.





(** X9: a wrapper that [asyncify_func] makes (its argument was not a
    coroutine function) never resolves: awaiting a call of it raises,
    with or without a running loop. *)
Theorem asyncify_func_wrapper_never_resolves {World} (f g : PyObj World)
    (ctx ctx' : Ctx) (args : Args World) (w w' : World) :
  is_coroutine_function f = false ->
  asyncify_func f = Ret g ->
  exists coro,
    call g ctx args w = (Ret coro, w)
    /\ is_raise (fst (await coro ctx' w')) = true
    /\ snd (await coro ctx' w') = w'.
Proof.
  intros Hn. unfold asyncify_func. rewrite Hn.
  destruct (is_callable f) eqn:Hc; [discriminate|]. intros [= <-].
  eexists. split; [reflexivity|].
  cbn. unfold get_running_loop.
  destruct (running_loop ctx'); [|split; reflexivity].
  unfold run_in_executor, invoke. rewrite Hc. split; reflexivity.
Qed.

Lemma asyncify_func_wrapper_never_resolves_witness :
  exists coro,
    call (async_func Samples.forty_two) Samples.loop_ctx Samples.no_args [] = (Ret coro, [])
    /\ is_raise (fst (await coro Samples.loop_ctx [])) = true
    /\ snd (await coro Samples.loop_ctx []) = [].
Proof.
  apply (asyncify_func_wrapper_never_resolves Samples.forty_two
           (async_func Samples.forty_two) Samples.loop_ctx Samples.loop_ctx
           Samples.no_args [] []); reflexivity.
Defined.

(** ** cls.py: further properties *)

Lemma assoc_set_names {World} (n : string) (v : PyObj World)
    (l : list (string * PyObj World)) :
  In n (map fst l) -> map fst (assoc_set n v l) = map fst l.
Proof.
  induction l as [|[k x] l IH]; intros Hin; [destruct Hin|].
  cbn. destruct (String.eqb k n) eqn:E; [reflexivity|].
  cbn. f_equal. apply IH. destruct Hin as [Hk|Hin]; [|exact Hin].
  cbn in Hk. subst k. now rewrite String.eqb_refl in E.
Qed.


Lemma asyncify_members_shape {World} (ms : list (string * PyObj World))
    (cls : PyClass World) :
  (forall n f, In (n, f) ms -> In n (map fst (members cls))) ->
  map fst (members (snd (asyncify_members ms cls))) = map fst (members cls)
  /\ cls_id (snd (asyncify_members ms cls)) = cls_id cls
  /\ (forall i, fst (asyncify_members ms cls) = Ret i -> i = cls_id cls).
Proof.
  revert cls. induction ms as [|[n f] ms IH]; intros cls Hin; cbn.
  - repeat split. now intros i [= <-].
  - assert (Hrest : forall n0 f0, In (n0, f0) ms -> In n0 (map fst (members cls)))
      by (intros n0 f0 H0; apply (Hin n0 f0); now right).
    destruct (skipped n f); [now apply IH|].
    destruct (asyncify_func f) as [f'|e]; cbn; [|repeat split; discriminate].
    assert (Hn : In n (map fst (members cls))) by (apply (Hin n f); now left).
    assert (Hnames : map fst (members (setattr cls n f')) = map fst (members cls))
      by (cbn; now apply assoc_set_names).
    destruct (IH (setattr cls n f')) as (H1 & H2 & H3).
    { intros n0 f0 H0. rewrite Hnames. now apply (Hrest n0 f0). }
    rewrite H1, H2. repeat split; [exact Hnames|exact H3].
Qed.

(** X10: [asyncify_class] neither adds, removes nor reorders members and
    keeps the identity of the class; when it returns, it returns that
    same class object. *)
Theorem asyncify_class_keeps_shape {World} (cls : PyClass World) :
  map fst (members (snd (asyncify_class cls))) = map fst (members cls)
  /\ cls_id (snd (asyncify_class cls)) = cls_id cls
  /\ (forall i, fst (asyncify_class cls) = Ret i -> i = cls_id cls).
Proof.
  unfold asyncify_class, getmembers. apply asyncify_members_shape.
  intros n f Hin. now apply (List.in_map fst) in Hin.
Qed.

(** X11: a member whose name starts with two underscores keeps its value
    through [asyncify_class], whether the call returns or raises. *)
Theorem asyncify_class_keeps_dunder_members {World} (cls : PyClass World)
    (name : string) :
  String.prefix "__" name = true ->
  getattr (snd (asyncify_class cls)) name = getattr cls name.
Proof.
  intros Hp. unfold asyncify_class.
  apply asyncify_members_skipped_untouched.
  intros f _. unfold skipped. rewrite Hp. apply orb_true_r.
Qed.

Lemma asyncify_class_keeps_dunder_members_witness :
  getattr (snd (asyncify_class Samples.RequestsClient)) "__init__"
  = getattr Samples.RequestsClient "__init__".
Proof.
  apply (asyncify_class_keeps_dunder_members Samples.RequestsClient "__init__").
  reflexivity.
Defined.

(** X12: a member marked with [ignore] keeps its value through
    [asyncify_class], whether the call returns or raises. *)
Theorem asyncify_class_keeps_ignored_members {World} (cls : PyClass World)
    (name : string) :
  (forall f, In (name, f) (getmembers cls) -> exists g, f = ignore g) ->
  getattr (snd (asyncify_class cls)) name = getattr cls name.
Proof.
  intros Hig. unfold asyncify_class.
  apply asyncify_members_skipped_untouched.
  intros f Hin. destruct (Hig f Hin) as [g ->].
  unfold skipped. cbn [ignore asyncify_ignore].
  now rewrite orb_true_r.
Qed.

Lemma asyncify_class_keeps_ignored_members_witness :
  getattr (snd (asyncify_class Samples.RequestsClient)) "close"
  = getattr Samples.RequestsClient "close".
Proof.
  apply (asyncify_class_keeps_ignored_members Samples.RequestsClient "close").
  intros f [[= <-]|[[= <-]|[[=]|[]]]].
  eexists. reflexivity.
Defined.




Lemma asyncify_members_raises {World} (ms : list (string * PyObj World))
    (cls : PyClass World) :
  is_raise (fst (asyncify_members ms cls))
  = existsb (fun m => negb (skipped (fst m) (snd m))
                      && negb (is_coroutine_function (snd m))
                      && is_callable (snd m)) ms.
Proof.
  revert cls. induction ms as [|[n f] ms IH]; intros cls; cbn; [reflexivity|].
  destruct (skipped n f); cbn; [apply IH|].
  unfold asyncify_func.
  destruct (is_coroutine_function f); cbn; [apply IH|].
  destruct (is_callable f); cbn; [reflexivity|apply IH].
Qed.

Lemma asyncify_members_raises_type_error {World}
    (ms : list (string * PyObj World)) (cls : PyClass World) :
  is_type_error (fst (asyncify_members ms cls)) = is_raise (fst (asyncify_members ms cls)).
Proof.
  revert cls. induction ms as [|[n f] ms IH]; intros cls; cbn; [reflexivity|].
  destruct (skipped n f); [apply IH|].
  unfold asyncify_func.
  destruct (is_coroutine_function f); [apply IH|].
  destruct (is_callable f); [reflexivity|apply IH].
Qed.

(** X14: [asyncify_class] raises exactly when some member that is not
    skipped is callable and not a coroutine function, and what it raises
    then is a [TypeError]. *)
Theorem asyncify_class_raises_iff {World} (cls : PyClass World) :
  is_raise (fst (asyncify_class cls))
  = existsb (fun m => negb (skipped (fst m) (snd m))
                      && negb (is_coroutine_function (snd m))
                      && is_callable (snd m)) (getmembers cls)
  /\ is_type_error (fst (asyncify_class cls)) = is_raise (fst (asyncify_class cls)).
Proof.
  unfold asyncify_class. split;
    [apply asyncify_members_raises|apply asyncify_members_raises_type_error].
Qed.

(** ** hybrid.py: further properties *)

Lemma prefix_split (n s : string) :
  String.prefix n s = true <-> exists q, s = n +:+ q.
Proof.
  revert s. induction n as [|a n IH]; intros s.
  - split; [intros _; now exists s|intros _; now destruct s].
  - destruct s as [|b s]; cbn.
    + split; [discriminate|intros [q Hq]; discriminate Hq].
    + destruct (ascii_dec a b) as [->|Hne].
      * rewrite IH. split; intros [q Hq]; exists q.
        -- rewrite append_cons. now f_equal.
        -- rewrite append_cons in Hq. now injection Hq.
      * split; [discriminate|]. intros [q Hq].
        rewrite append_cons in Hq. injection Hq as Hq _. congruence.
Qed.

Lemma contains_split (n s : string) :
  contains n s = true <-> exists p q, s = p +:+ n +:+ q.
Proof.
  split.
  - induction s as [|c s IH]; cbn [contains]; intros H.
    + rewrite orb_false_r in H. apply prefix_split in H. destruct H as [q Hq].
      now exists EmptyString, q.
    + apply orb_true_iff in H. destruct H as [H|H].
      * apply prefix_split in H. destruct H as [q Hq]. now exists EmptyString, q.
      * destruct (IH H) as (p & q & ->). exists (String c p), q.
        now rewrite append_cons.
  - intros (p & q & ->). induction p as [|c p IH].
    + assert (Hp : String.prefix n (n +:+ q) = true)
        by (apply prefix_split; now exists q).
      change (EmptyString +:+ n +:+ q) with (n +:+ q).
      destruct (n +:+ q); cbn [contains]; now rewrite Hp.
    + rewrite append_cons. cbn [contains]. rewrite IH. apply orb_true_r.
Qed.

Lemma substring_head (l : nat) (s : string) :
  exists q, s = String.substring 0 l s +:+ q.
Proof.
  revert l. induction s as [|c s IH]; intros l.
  - exists EmptyString. now destruct l.
  - destruct l as [|l]; cbn [String.substring].
    + now exists (String c s).
    + destruct (IH l) as [q Hq]. exists q. rewrite append_cons. now f_equal.
Qed.

Lemma substring_split (a l : nat) (s : string) :
  exists p q, s = p +:+ String.substring a l s +:+ q.
Proof.
  revert s. induction a as [|a IH]; intros s.
  - destruct (substring_head l s) as [q Hq]. now exists EmptyString, q.
  - destruct s as [|c s].
    + exists EmptyString, EmptyString. now destruct l.
    + cbn [String.substring]. destruct (IH s) as (p & q & Hs).
      exists (String c p), q. rewrite append_cons. now f_equal.
Qed.

Lemma contains_slice (n text : string) (a b : nat) :
  contains n (slice a b text) = true -> contains n text = true.
Proof.
  unfold slice. intros H. apply contains_split in H. destruct H as (p1 & q1 & Hs).
  destruct (substring_split a (b - a) text) as (p & q & Ht).
  apply contains_split. exists (p +:+ p1), (q1 +:+ q).
  rewrite Ht at 1. rewrite Hs. now rewrite !append_assoc3.
Qed.

(** X15: a line is classified as awaited only if it contains both
    [await] and the registered name. *)
Theorem _check_regex_needs_await_and_name {World} (self : HybridFunction World)
    (text : string) :
  _check_regex self text = true ->
  contains "await" text = true /\ contains (_name self) text = true.
Proof.
  intros H. split.
  - unfold _check_regex, search in H.
    destruct (search_from regex 0 text) as [[a b]|] eqn:Hs; [|discriminate].
    now apply search_from_regex_has_await in Hs.
  - unfold _check_regex in H.
    destruct (search regex text) as [[a b]|]; [|discriminate].
    destruct (contains (_name self) (slice a b text)) eqn:Hc; [|discriminate].
    now apply contains_slice in Hc.
Qed.

Lemma _check_regex_needs_await_and_name_witness :
  contains "await" "x = await client.foo(1)" = true
  /\ contains (_name (Samples.hybrid "foo")) "x = await client.foo(1)" = true.
Proof.
  apply (_check_regex_needs_await_and_name (Samples.hybrid "foo")). reflexivity.
Defined.

(** X16: fetching a dispatcher made by [hybrid_function] from an
    instance succeeds and gives a copy with the same name and callbacks
    that carries the instance. *)
Theorem get_binds_instance {World} (name : string) (sync_cb async_cb : PyObj World)
    (self : HybridFunction World) (instance : Val World) :
  hybrid_function name sync_cb async_cb = Ret self ->
  __get__ self instance
  = Ret {| _name := name; sync_callback := sync_cb;
           async_callback := async_cb; _instance := instance |}.
Proof.
  intros Hmk. unfold hybrid_function in Hmk.
  pose proof (init_fields _ _ _ _ Hmk) as Hself. subst self.
  unfold __get__. cbn [_name sync_callback async_callback].
  now rewrite Hmk.
Qed.

Lemma get_binds_instance_witness :
  __get__ (Samples.hybrid "foo") Samples.truthy_instance
  = Ret {| _name := "foo"; sync_callback := Samples.sync_cb;
           async_callback := Samples.async_cb;
           _instance := Samples.truthy_instance |}.
Proof.
  apply (get_binds_instance "foo" Samples.sync_cb Samples.async_cb). reflexivity.
Defined.

(** X17: fetching from a bound copy binds anew: the instance of the last
    fetch replaces the earlier one. *)
Theorem get_rebinds {World} (self bound : HybridFunction World) (i1 i2 : Val World) :
  __get__ self i1 = Ret bound ->
  __get__ bound i2 = __get__ self i2.
Proof.
  intros H. apply get_fields in H. subst bound. reflexivity.
Qed.

Lemma get_rebinds_witness :
  __get__ {| _name := "lookup";
             sync_callback := Samples.count_args "get_user" 1;
             async_callback := Samples.count_args "fetch_user" 1;
             _instance := Samples.falsy_instance |} Samples.truthy_instance
  = __get__ Samples.member Samples.truthy_instance.
Proof.
  apply (get_rebinds Samples.member _ Samples.falsy_instance Samples.truthy_instance).
  reflexivity.
Defined.

(** X18: the line [_get_frame] returns contains the registered name and
    is the first source line of one of the frames of the stack. *)
Theorem _get_frame_returns_line_with_name {World} (self : HybridFunction World)
    (stack : list FrameInfo) (line : string) :
  _get_frame self stack = Ret line ->
  contains (_name self) line = true
  /\ exists frame more, In frame stack /\ code_context frame = Some (line :: more).
Proof.
  induction stack as [|frame stack IH]; cbn; [discriminate|].
  destruct (code_context frame) as [[|l ls]|] eqn:Hc.
  - intros H. destruct (IH H) as (Hin & fr & more & Hfr & Hcc).
    split; [exact Hin|]. exists fr, more. split; [now right|exact Hcc].
  - destruct (contains (_name self) l) eqn:Hl.
    + intros [= <-]. split; [exact Hl|]. exists frame, ls. split; [now left|exact Hc].
    + intros H. destruct (IH H) as (Hin & fr & more & Hfr & Hcc).
      split; [exact Hin|]. exists fr, more. split; [now right|exact Hcc].
  - intros H. destruct (IH H) as (Hin & fr & more & Hfr & Hcc).
    split; [exact Hin|]. exists fr, more. split; [now right|exact Hcc].
Qed.

Lemma _get_frame_returns_line_with_name_witness :
  contains (_name (Samples.hybrid "foo"))
    ("    x = foo()" +:+ String "010"%char EmptyString) = true
  /\ exists frame more,
       In frame [own_frame; Samples.no_source; Samples.source_line "    x = foo()"]
       /\ code_context frame
          = Some (("    x = foo()" +:+ String "010"%char EmptyString) :: more).
Proof.
  apply (_get_frame_returns_line_with_name (Samples.hybrid "foo")
           [own_frame; Samples.no_source; Samples.source_line "    x = foo()"]).
  reflexivity.
Defined.

Lemma _get_frame_no_match {World} (self : HybridFunction World) (stack : list FrameInfo) :
  (forall frame l ls, In frame stack -> code_context frame = Some (l :: ls) ->
                      contains (_name self) l = false) ->
  _get_frame self stack
  = Raise (RuntimeError "Could not tell if it should call sync or async.").
Proof.
  induction stack as [|frame stack IH]; intros Hno; [reflexivity|].
  rewrite _get_frame_skip.
  - apply IH. intros fr l ls Hin. apply Hno. now right.
  - intros l ls. apply Hno. now left.
Qed.

(** X19: when no frame of the stack has a source line that contains the
    registered name (no source at all included), the call raises
    [RuntimeError] and calls neither callback. *)
Theorem call_without_matching_frame_raises {World} (self : HybridFunction World)
    (stack : list FrameInfo) (ctx : Ctx) (args : Args World) (w : World) :
  (forall frame l ls, In frame stack -> code_context frame = Some (l :: ls) ->
                      contains (_name self) l = false) ->
  __call__ self (Some stack) ctx args w
  = (Raise (RuntimeError "Could not tell if it should call sync or async."), w).
Proof.
  intros Hno. unfold __call__. now rewrite _get_frame_no_match.
Qed.

Lemma call_without_matching_frame_raises_witness :
  __call__ (Samples.hybrid "foo")
    (Some [own_frame; Samples.no_source; Samples.source_line "    g()"])
    Samples.loop_ctx Samples.no_args []
  = (Raise (RuntimeError "Could not tell if it should call sync or async."), []).
Proof.
  apply (call_without_matching_frame_raises (Samples.hybrid "foo")).
  intros frame l ls [<-|[<-|[<-|[]]]]; cbn; intros [= <- <-]; reflexivity.
Defined.

(** X20: whatever frame is selected, a selected line without [await]
    sends the call to the sync callback, with the instance in front of
    the arguments when the dispatcher carries a truthy one. *)
Theorem call_without_await_runs_sync {World} (self : HybridFunction World)
    (stack : list FrameInfo) (line : string)
    (ctx : Ctx) (args : Args World) (w : World) :
  _get_frame self stack = Ret line ->
  contains "await" (strip line) = false ->
  __call__ self (Some stack) ctx args w
  = invoke (sync_callback self) ctx
      (if truth (_instance self) then prepend (_instance self) args else args) w.
Proof.
  intros Hframe Hno. unfold __call__. rewrite Hframe.
  destruct (_check_regex self (strip line)) eqn:Hre; [|reflexivity].
  apply _check_regex_needs_await in Hre. congruence.
Qed.

Lemma call_without_await_runs_sync_witness :
  __call__ (Samples.hybrid "foo")
    (Some [own_frame; Samples.source_line "    x = foo()"])
    Samples.loop_ctx Samples.no_args []
  = (Ret (VInt 1), ["sync_cb@loop"]).
Proof.
  refine (call_without_await_runs_sync (Samples.hybrid "foo")
            [own_frame; Samples.source_line "    x = foo()"]
            ("    x = foo()" +:+ String "010"%char EmptyString)
            Samples.loop_ctx Samples.no_args [] _ _); reflexivity.
Defined.

(** X21: a dispatcher whose name occurs in the line [__call__] itself is
    executing selects that line, its own frame being the first of the
    walk, and so calls the sync callback whatever the caller wrote. *)
Theorem name_in_own_line_runs_sync {World} (self : HybridFunction World)
    (outer : list FrameInfo) (ctx : Ctx) (args : Args World) (w : World) :
  contains (_name self) call_site_line = true ->
  __call__ self (Some (own_frame :: outer)) ctx args w
  = invoke (sync_callback self) ctx
      (if truth (_instance self) then prepend (_instance self) args else args) w.
Proof.
  intros Hin. unfold __call__.
  rewrite (_get_frame_hit self own_frame outer call_site_line [])
    by (reflexivity || exact Hin).
  assert (Hre : _check_regex self (strip call_site_line) = false).
  { unfold _check_regex.
    assert (Hs : search regex (strip call_site_line) = None) by (vm_compute; reflexivity).
    now rewrite Hs. }
  now rewrite Hre.
Qed.

Lemma name_in_own_line_runs_sync_witness :
  __call__ (Samples.hybrid "strip")
    (Some [own_frame; Samples.source_line "    x = await strip()"])
    Samples.loop_ctx Samples.no_args []
  = (Ret (VInt 1), ["sync_cb@loop"]).
Proof.
  refine (name_in_own_line_runs_sync (Samples.hybrid "strip")
            [Samples.source_line "    x = await strip()"]
            Samples.loop_ctx Samples.no_args [] _); reflexivity.
Defined.

(** ** events.py: further properties *)

(** X22: a registration that raises leaves the policy as it was. *)
Theorem event_failure_leaves_policy {World} (platform : string) (self : Policy World)
    (func : PyObj World) :
  is_raise (fst (event platform self func)) = true ->
  snd (event platform self func) = self.
Proof.
  unfold event.
  destruct (negb (is_callable func)); [reflexivity|].
  destruct (dunder_name func) as [name|]; [|reflexivity].
  destruct (_ && _); [reflexivity|].
  destruct (negb (name_in name _valid_names)); [reflexivity|].
  destruct (super_getattr self name) as [old|e]; [|reflexivity].
  destruct (dunder_name old); [discriminate|reflexivity].
Qed.

Lemma event_failure_leaves_policy_witness :
  snd (event "linux" Samples.policy (Samples.plain_def "close_loop" 0 VNone))
  = Samples.policy.
Proof.
  apply (event_failure_leaves_policy "linux" Samples.policy
           (Samples.plain_def "close_loop" 0 VNone)).
  reflexivity.
Defined.

(** X23: a registration that succeeds was made with a callable whose
    name is one of the five recognized names and, on Windows, is not one
    of the two child watcher names. *)
Theorem event_success_requires {World} (platform : string) (self self' : Policy World)
    (func upd : PyObj World) :
  event platform self func = (Ret upd, self') ->
  is_callable func = true
  /\ exists name,
       dunder_name func = Some name
       /\ name_in name _valid_names = true
       /\ (String.eqb platform "win32"
           && name_in name ["get_child_watcher"; "set_child_watcher"]) = false.
Proof.
  unfold event.
  destruct (is_callable func); [|discriminate]. cbn [negb].
  destruct (dunder_name func) as [name|]; [|discriminate].
  destruct (_ && _) eqn:Hwin; [discriminate|].
  destruct (name_in name _valid_names) eqn:Hvalid; [|discriminate].
  intros _. split; [reflexivity|]. exists name. repeat split; assumption.
Qed.

Lemma event_success_requires_witness :
  is_callable Samples.new_event_loop_hook = true
  /\ exists name,
       dunder_name Samples.new_event_loop_hook = Some name
       /\ name_in name _valid_names = true
       /\ (String.eqb "linux" "win32"
           && name_in name ["get_child_watcher"; "set_child_watcher"]) = false.
Proof.
  apply (event_success_requires "linux" Samples.policy
           (snd (event "linux" Samples.policy Samples.new_event_loop_hook))
           Samples.new_event_loop_hook
           (updated Samples.new_event_loop_hook Samples.base_new_event_loop)).
  reflexivity.
Defined.

(** X24: a callable whose name is not one of the five recognized names
    is rejected with [RuntimeError] on every platform, and the policy is
    left as it was. *)
Theorem event_rejects_other_names {World} (platform : string) (self : Policy World)
    (func : PyObj World) (name : string) :
  is_callable func = true ->
  dunder_name func = Some name ->
  name_in name _valid_names = false ->
  event platform self func
  = (Raise (RuntimeError (repr_str name +:+ " is not a valid function name. "
                          +:+ repr_tuple _valid_names +:+ " are valid.")), self).
Proof.
  intros Hc Hn Hv. unfold event. rewrite Hc, Hn, Hv. cbn [negb].
  assert (Hw : name_in name ["get_child_watcher"; "set_child_watcher"] = false).
  { unfold name_in, _valid_names in *. cbn [existsb] in *.
    repeat (apply orb_false_iff in Hv; destruct Hv as [? Hv]).
    repeat (apply orb_false_iff; split); assumption. }
  rewrite Hw, andb_false_r. reflexivity.
Qed.

Lemma event_rejects_other_names_witness :
  event "win32" Samples.policy (Samples.plain_def "close_loop" 0 VNone)
  = (Raise (RuntimeError
      ("'close_loop' is not a valid function name. "
       +:+ "('get_event_loop', 'set_event_loop', 'new_event_loop', "
       +:+ "'get_child_watcher', 'set_child_watcher') are valid.")),
     Samples.policy).
Proof.
  apply (event_rejects_other_names "win32" Samples.policy
           (Samples.plain_def "close_loop" 0 VNone) "close_loop"); reflexivity.
Defined.

(** X25: on Windows, a hook for either child watcher method is rejected
    with [RuntimeError], whatever the base policy provides. *)
Theorem event_rejects_child_watchers_on_windows {World} (self : Policy World)
    (func : PyObj World) (name : string) :
  is_callable func = true ->
  dunder_name func = Some name ->
  name_in name ["get_child_watcher"; "set_child_watcher"] = true ->
  event "win32" self func
  = (Raise (RuntimeError (repr_str name +:+ " is not supported on windows.")), self).
Proof.
  intros Hc Hn Hw. unfold event. rewrite Hc, Hn, Hw. reflexivity.
Qed.

Lemma event_rejects_child_watchers_on_windows_witness :
  event "win32" Samples.policy (Samples.plain_def "set_child_watcher" 1 VNone)
  = (Raise (RuntimeError "'set_child_watcher' is not supported on windows."),
     Samples.policy).
Proof.
  apply (event_rejects_child_watchers_on_windows Samples.policy
           (Samples.plain_def "set_child_watcher" 1 VNone) "set_child_watcher");
    reflexivity.
Defined.

(** X26: of two registrations under the same name, the second replaces
    the first: a call of the method runs the second hook only, then the
    base method. *)
Theorem event_last_registration_wins {World} (platform : string)
    (p0 p1 p2 : Policy World) (f1 f2 u1 u2 old : PyObj World) (name : string)
    (ctx : Ctx) (args : Args World) (w : World) :
  event platform p0 f1 = (Ret u1, p1) ->
  event platform p1 f2 = (Ret u2, p2) ->
  dunder_name f2 = Some name ->
  super_getattr p0 name = Ret old ->
  dunder_name old = Some name ->
  call_method p2 name ctx args w
  = match invoke f2 ctx args w with
    | (Raise e, w') => (Raise e, w')
    | (Ret _, w') => invoke old ctx args w'
    end.
Proof.
  intros H1 H2 Hn2 Hold Honame.
  destruct (event_success platform p0 p1 f1 u1 H1)
    as (n1 & o1 & on1 & _ & _ & _ & _ & _ & Hp1).
  destruct (event_success platform p1 p2 f2 u2 H2)
    as (n2 & o2 & on2 & Hn2' & _ & Ho2 & Hon2 & -> & ->).
  rewrite Hn2 in Hn2'. injection Hn2' as <-.
  assert (Hold1 : super_getattr p1 name = Ret old) by (subst p1; exact Hold).
  rewrite Hold1 in Ho2. injection Ho2 as <-.
  rewrite Honame in Hon2. injection Hon2 as <-.
  apply call_registered_hook.
Qed.

Lemma event_last_registration_wins_witness :
  call_method
    (snd (event "linux"
            (snd (event "linux" Samples.policy Samples.new_event_loop_hook))
            Samples.second_hook))
    "new_event_loop" Samples.idle_ctx Samples.no_args []
  = (Ret (VObj 9 true), ["second hook new_event_loop"; "base new_event_loop"]).
Proof.
  refine (event_last_registration_wins "linux" Samples.policy
            (snd (event "linux" Samples.policy Samples.new_event_loop_hook))
            (snd (event "linux"
                    (snd (event "linux" Samples.policy Samples.new_event_loop_hook))
                    Samples.second_hook))
            Samples.new_event_loop_hook Samples.second_hook
            (updated Samples.new_event_loop_hook Samples.base_new_event_loop)
            (updated Samples.second_hook Samples.base_new_event_loop)
            Samples.base_new_event_loop "new_event_loop"
            Samples.idle_ctx Samples.no_args [] _ _ _ _ _); reflexivity.
Defined.

(** X27: a registration changes the policy's method of that one name
    only: every other method resolves and runs as before. *)
Theorem event_leaves_other_methods {World} (platform : string)
    (self self' : Policy World) (func upd old : PyObj World) (name other : string)
    (ctx : Ctx) (args : Args World) (w : World) :
  event platform self func = (Ret upd, self') ->
  dunder_name func = Some name ->
  super_getattr self name = Ret old ->
  dunder_name old = Some name ->
  other <> name ->
  call_method self' other ctx args w = call_method self other ctx args w.
Proof.
  intros Hev Hname Hold Honame Hne.
  destruct (event_success platform self self' func upd Hev)
    as (name' & old' & oname' & Hn' & _ & Ho' & Hon' & -> & ->).
  rewrite Hname in Hn'. injection Hn' as <-.
  rewrite Hold in Ho'. injection Ho' as <-.
  rewrite Honame in Hon'. injection Hon' as <-.
  unfold call_method, policy_getattr, policy_setattr, super_getattr.
  cbn [instance_dict base_methods].
  now rewrite lookup_insert_ne by congruence.
Qed.

Lemma event_leaves_other_methods_witness :
  call_method
    (snd (event "linux" Samples.full_policy Samples.new_event_loop_hook))
    "get_event_loop" Samples.idle_ctx Samples.no_args []
  = call_method Samples.full_policy "get_event_loop" Samples.idle_ctx Samples.no_args [].
Proof.
  apply (event_leaves_other_methods "linux" Samples.full_policy
           (snd (event "linux" Samples.full_policy Samples.new_event_loop_hook))
           Samples.new_event_loop_hook
           (updated Samples.new_event_loop_hook Samples.base_new_event_loop)
           Samples.base_new_event_loop "new_event_loop" "get_event_loop");
    try reflexivity.
  discriminate.
Defined.

Lemma issubclass_refl (c : Class) : issubclass c c = true.
Proof. destruct c as [n bs]. cbn [issubclass qualname]. now rewrite String.eqb_refl. Qed.

Lemma issubclass_base (c b target : Class) :
  In b (__bases__ c) -> issubclass b target = true -> issubclass c target = true.
Proof.
  destruct c as [n bs]. cbn [__bases__ issubclass]. intros Hin Hb.
  apply orb_true_iff. right. apply existsb_exists. now exists b.
Qed.

(** X28: when [change_base_policy] accepts a class, that class becomes
    the only base of the policy class, which keeps its name and from
    then on derives from the event loop class. *)
Theorem change_base_policy_accepts_loop_subclass (cls policy_cls cls' : Class) :
  change_base_policy cls policy_cls = (Ret tt, cls') ->
  __bases__ cls' = [policy_cls]
  /\ qualname cls' = qualname cls
  /\ issubclass cls' policy_cls = true
  /\ issubclass cls' AbstractEventLoop = true.
Proof.
  unfold change_base_policy.
  destruct (existsb (class_eqb AbstractEventLoop) (__bases__ policy_cls)) eqn:Hb;
    [|discriminate].
  cbn [negb]. intros [= <-].
  split; [reflexivity|]. split; [reflexivity|].
  assert (Hp : In policy_cls (__bases__ (MkClass (qualname cls) [policy_cls])))
    by (now left).
  split.
  - exact (issubclass_base _ _ _ Hp (issubclass_refl policy_cls)).
  - apply (issubclass_base _ policy_cls _ Hp).
    apply existsb_exists in Hb. destruct Hb as (b & Hin & Hb).
    apply (issubclass_base _ b _ Hin).
    unfold class_eqb in Hb. apply String.eqb_eq in Hb.
    destruct b as [bn bbs]. cbn [qualname] in Hb. cbn [issubclass].
    rewrite <- Hb. now rewrite String.eqb_refl.
Qed.

Lemma change_base_policy_accepts_loop_subclass_witness :
  __bases__ (snd (change_base_policy AsyncifyEventLoopPolicy Samples.MyLoop))
  = [Samples.MyLoop]
  /\ qualname (snd (change_base_policy AsyncifyEventLoopPolicy Samples.MyLoop))
     = qualname AsyncifyEventLoopPolicy
  /\ issubclass (snd (change_base_policy AsyncifyEventLoopPolicy Samples.MyLoop))
       Samples.MyLoop = true
  /\ issubclass (snd (change_base_policy AsyncifyEventLoopPolicy Samples.MyLoop))
       AbstractEventLoop = true.
Proof.
  apply (change_base_policy_accepts_loop_subclass AsyncifyEventLoopPolicy
           Samples.MyLoop).
  reflexivity.
Defined.
